(** * sys_health_monitor: a shallow embedding of the kernel module

    The module samples host memory, load and disk I/O every five seconds
    from a timer callback ([poll_metrics]), keeps the latest sample in the
    global [snapshot] under [snap_lock], prints threshold alerts with
    [printk] and renders the sample through /proc/sys_health
    ([proc_show]).

    C integers are modelled as [Z] with every conversion and wrap-around of
    the source written out.  Kernel services the module calls (si_meminfo,
    avenrun, num_online_cpus, the block-layer counters, the vm-event
    counters, jiffies) are inputs of a cycle, collected in [host]. *)

From Stdlib Require Import ZArith List Bool Lia String Ascii DecimalString DecimalN.
From Stdlib Require Import Permutation.
Import ListNotations.
Local Open Scope Z_scope.

(** ** Machine integers *)

Module Mach.

(** Reduction of a mathematical integer to a [w]-bit unsigned value: the
    effect of a C conversion to, or of arithmetic in, an unsigned type. *)
Definition wrap (w z : Z) : Z := z mod 2 ^ w.

Definition u32 (z : Z) : Z := wrap 32 z.
Definition u64 (z : Z) : Z := wrap 64 z.

Definition is_u32 (z : Z) : Prop := 0 <= z < 2 ^ 32.
Definition is_u64 (z : Z) : Prop := 0 <= z < 2 ^ 64.
(** Values of C [int]. *)
Definition is_int (z : Z) : Prop := - 2 ^ 31 <= z < 2 ^ 31.

End Mach.
Import Mach.

(** ** Build configuration and kernel constants

    What the preprocessor and the kernel headers fix for one build of the
    module.  [msecs_to_jiffies] and [jiffies_to_msecs] are kernel functions
    that depend on HZ; they are taken as they come. *)

Record kconfig : Type := {
  BITS_PER_LONG : Z;
  FSHIFT : Z;                     (* linux/sched/loadavg.h *)
  PAGE_SIZE : Z;
  HAVE_DISK_STATS : bool;
  HAVE_DISK_ITER : bool;
  msecs_to_jiffies : Z -> Z;      (* returns unsigned long *)
  jiffies_to_msecs : Z -> Z       (* returns unsigned int *)
}.

Definition ulong (k : kconfig) (z : Z) : Z := wrap (BITS_PER_LONG k) z.

(** ** Data *)

(** [struct sys_snapshot]. *)
Record sys_snapshot : Type := {
  ts_ms : Z;            (* u64 *)
  free_mem_mib : Z;     (* u32 *)
  total_mem_mib : Z;    (* u32 *)
  load_pct : Z;         (* u32 *)
  io_rate_sps : Z       (* u32 *)
}.

(** A global of static storage duration starts out all zero. *)
Definition zero_snapshot : sys_snapshot :=
  {| ts_ms := 0; free_mem_mib := 0; total_mem_mib := 0;
     load_pct := 0; io_rate_sps := 0 |}.

(** The lines the module hands to [printk]; the numeric arguments are the
    values passed for the conversions of the format string. *)
Inductive printk_line : Type :=
| Info_loaded
| Info_unloaded
| Info_io_fallback
| Alert_mem (free_mib threshold : Z)
| Alert_cpu (load threshold : Z)
| Alert_io (rate threshold : Z).

(** What the kernel reports during one run of the timer callback. *)
Record host : Type := {
  si_totalram : Z;          (* si_meminfo: pages, unsigned long *)
  si_freeram : Z;
  avenrun_1 : Z;            (* avenrun[1], unsigned long *)
  num_online_cpus : Z;      (* unsigned int *)
  disks : list (Z * Z);     (* per gendisk: sectors[STAT_READ], sectors[STAT_WRITE] *)
  ev_PGPGIN : Z;            (* all_vm_events *)
  ev_PGPGOUT : Z;
  jiffies_stamp : Z;        (* jiffies when the sample is stamped *)
  jiffies_rearm : Z         (* jiffies when the timer is re-armed *)
}.

(** The module parameters and the module's static variables, together with
    the kernel log the module writes to. *)
Record module_state : Type := {
  mem_threshold : Z;        (* int *)
  cpu_threshold : Z;        (* int *)
  io_threshold : Z;         (* int *)
  poll_timer : option Z;    (* expiry of the pending timer, if armed *)
  last_io_ticks : Z;        (* u64 *)
  io_fallback_logged : bool;
  proc_entry : bool;        (* /proc/sys_health registered *)
  snapshot : sys_snapshot;
  dmesg : list printk_line  (* oldest first *)
}.

(** State of the module when it is loaded, before [sys_health_init] runs. *)
Definition module_loaded : module_state :=
  {| mem_threshold := 100; cpu_threshold := 80; io_threshold := 5000;
     poll_timer := None; last_io_ticks := 0; io_fallback_logged := false;
     proc_entry := false; snapshot := zero_snapshot; dmesg := [] |}.

(** ** The monad of module code

    Module code reads and writes the static variables and may trap: the only
    trapping operation the module uses is integer division. *)

Inductive outcome (A : Type) : Type :=
| Ok (a : A) (st : module_state)
| Oops.                       (* divide error *)
Arguments Ok {A} a st.
Arguments Oops {A}.

Definition M (A : Type) : Type := module_state -> outcome A.

Definition ret {A} (a : A) : M A := fun st => Ok a st.

Definition bind {A B} (m : M A) (f : A -> M B) : M B :=
  fun st => match m st with
            | Ok a st' => f a st'
            | Oops => Oops
            end.

Declare Scope kmod_scope.
Delimit Scope kmod_scope with kmod.
Notation "x <- m ;; f" := (bind m (fun x => f))
  (at level 61, m at next level, right associativity) : kmod_scope.
Notation "m ;; f" := (bind m (fun _ => f))
  (at level 61, right associativity) : kmod_scope.
Local Open Scope kmod_scope.

Definition gets {A} (proj : module_state -> A) : M A := fun st => Ok (proj st) st.
Definition modify (f : module_state -> module_state) : M unit := fun st => Ok tt (f st).
Definition when (b : bool) (m : M unit) : M unit := if b then m else ret tt.

Definition set_last_io_ticks (v : Z) (st : module_state) : module_state :=
  {| mem_threshold := mem_threshold st; cpu_threshold := cpu_threshold st;
     io_threshold := io_threshold st; poll_timer := poll_timer st;
     last_io_ticks := v; io_fallback_logged := io_fallback_logged st;
     proc_entry := proc_entry st; snapshot := snapshot st; dmesg := dmesg st |}.

Definition set_io_fallback_logged (v : bool) (st : module_state) : module_state :=
  {| mem_threshold := mem_threshold st; cpu_threshold := cpu_threshold st;
     io_threshold := io_threshold st; poll_timer := poll_timer st;
     last_io_ticks := last_io_ticks st; io_fallback_logged := v;
     proc_entry := proc_entry st; snapshot := snapshot st; dmesg := dmesg st |}.

Definition set_snapshot (v : sys_snapshot) (st : module_state) : module_state :=
  {| mem_threshold := mem_threshold st; cpu_threshold := cpu_threshold st;
     io_threshold := io_threshold st; poll_timer := poll_timer st;
     last_io_ticks := last_io_ticks st; io_fallback_logged := io_fallback_logged st;
     proc_entry := proc_entry st; snapshot := v; dmesg := dmesg st |}.

Definition set_poll_timer (v : option Z) (st : module_state) : module_state :=
  {| mem_threshold := mem_threshold st; cpu_threshold := cpu_threshold st;
     io_threshold := io_threshold st; poll_timer := v;
     last_io_ticks := last_io_ticks st; io_fallback_logged := io_fallback_logged st;
     proc_entry := proc_entry st; snapshot := snapshot st; dmesg := dmesg st |}.

Definition set_proc_entry (v : bool) (st : module_state) : module_state :=
  {| mem_threshold := mem_threshold st; cpu_threshold := cpu_threshold st;
     io_threshold := io_threshold st; poll_timer := poll_timer st;
     last_io_ticks := last_io_ticks st; io_fallback_logged := io_fallback_logged st;
     proc_entry := v; snapshot := snapshot st; dmesg := dmesg st |}.

Definition log_line (l : printk_line) (st : module_state) : module_state :=
  {| mem_threshold := mem_threshold st; cpu_threshold := cpu_threshold st;
     io_threshold := io_threshold st; poll_timer := poll_timer st;
     last_io_ticks := last_io_ticks st; io_fallback_logged := io_fallback_logged st;
     proc_entry := proc_entry st; snapshot := snapshot st; dmesg := dmesg st ++ [l] |}.

Definition printk (l : printk_line) : M unit := modify (log_line l).

(** [div_u64(dividend, divisor)]: 64-bit by 32-bit unsigned division. *)
Definition div_u64 (dividend divisor : Z) : M Z :=
  if u32 divisor =? 0 then (fun _ => Oops) else ret (u64 dividend / u32 divisor).

(** ** The module's functions *)

Section Module.

Variable k : kconfig.

(** [collect_memory]: the two out-parameters are returned as a pair
    [(free_mib, total_mib)]. *)
Definition collect_memory (h : host) : M (Z * Z) :=
  let total_mib := u32 (Z.shiftr (si_totalram h) 10) in
  let free_mib := u32 (Z.shiftr (si_freeram h) 10) in
  ret (free_mib, total_mib).

(** The divisor of the load computation:
    [max_t(unsigned int, num_online_cpus(), 1)]. *)
Definition online_cores (h : host) : Z := Z.max (u32 (num_online_cpus h)) (u32 1).

Definition collect_load_percent (h : host) : M Z :=
  let avg_fp := avenrun_1 h in
  let load_x100 := Z.shiftr (u64 (avg_fp * 100)) (FSHIFT k) in
  let cores := online_cores h in
  r <- div_u64 load_x100 cores ;;
  ret (u32 r).

(** Preferred path of [collect_disk_ios]: the loop over the disks. *)
Definition sum_disk_sectors (ds : list (Z * Z)) : Z :=
  fold_left (fun io_total d => u64 (io_total + ulong k (fst d + snd d))) ds 0.

(** The cumulative counter [io_total] of [collect_disk_ios], on the
    path the build selects. *)
Definition read_io_total (h : host) : M Z :=
  if HAVE_DISK_STATS k && HAVE_DISK_ITER k then
    ret (sum_disk_sectors (disks h))
  else
    logged <- gets io_fallback_logged ;;
    when (negb logged)
         (printk Info_io_fallback ;;
          modify (set_io_fallback_logged true)) ;;
    let pages_io := u64 (u64 (ev_PGPGIN h) + u64 (ev_PGPGOUT h)) in
    ret (u64 (pages_io * Z.shiftr (PAGE_SIZE k) 9)).

(** The delta step of [collect_disk_ios]: from the cumulative counter to
    the rate over the 5-second window. *)
Definition io_delta_rate (io_total : Z) : M Z :=
  last <- gets last_io_ticks ;;
  if last =? 0 then
    modify (set_last_io_ticks io_total) ;;
    ret 0
  else
    let delta := u64 (io_total - last) in
    modify (set_last_io_ticks io_total) ;;
    r <- div_u64 delta 5 ;;
    ret (u32 r).

Definition collect_disk_ios (h : host) : M Z :=
  io_total <- read_io_total h ;;
  io_delta_rate io_total.

(** The critical section of [poll_metrics]: [snapshot = tmp] under
    [snap_lock].  Its interleavings with readers are the subject of
    [Module Concurrent] below. *)
Definition publish (tmp : sys_snapshot) : M unit := modify (set_snapshot tmp).

(** [mod_timer(&poll_timer, jiffies + msecs_to_jiffies(5000))]. *)
Definition mod_timer_5s (jiffies : Z) : M unit :=
  modify (set_poll_timer (Some (ulong k (jiffies + ulong k (msecs_to_jiffies k 5000))))).

(** The timer callback.  The comparisons are between a [u32] field and an
    [int] parameter: C converts the [int] to [unsigned int]. *)
Definition poll_metrics (h : host) : M unit :=
  mem <- collect_memory h ;;
  load <- collect_load_percent h ;;
  io <- collect_disk_ios h ;;
  let tmp := {| ts_ms := u32 (jiffies_to_msecs k (jiffies_stamp h));
                free_mem_mib := fst mem; total_mem_mib := snd mem;
                load_pct := load; io_rate_sps := io |} in
  publish tmp ;;
  mem_thr <- gets mem_threshold ;;
  when (free_mem_mib tmp <? u32 mem_thr)
       (printk (Alert_mem (free_mem_mib tmp) mem_thr)) ;;
  cpu_thr <- gets cpu_threshold ;;
  when (load_pct tmp >? u32 cpu_thr)
       (printk (Alert_cpu (load_pct tmp) cpu_thr)) ;;
  io_thr <- gets io_threshold ;;
  when (io_rate_sps tmp >? u32 io_thr)
       (printk (Alert_io (io_rate_sps tmp) io_thr)) ;;
  mod_timer_5s (jiffies_rearm h).

End Module.

(** ** The /proc reader and the module life cycle *)

Definition decimal (z : Z) : string := NilZero.string_of_uint (N.to_uint (Z.to_N z)).

Definition newline : string := String (ascii_of_nat 10) EmptyString.

(** The two separators of the format string that are not ASCII, as the
    bytes of the source file: U+202F (narrow no-break space) stands before
    [MiB] and [%], U+00A0 (no-break space) before [sectors/s]. *)
Definition nnbsp : string :=
  String (ascii_of_nat 226) (String (ascii_of_nat 128) (String (ascii_of_nat 175) EmptyString)).
Definition nbsp : string :=
  String (ascii_of_nat 194) (String (ascii_of_nat 160) EmptyString).

(** The text [seq_printf] produces from the format of [proc_show]; the
    conversion [%%] prints one percent sign. *)
Definition render (s : sys_snapshot) : string :=
  ("Timestamp_ms : " ++ decimal (ts_ms s) ++ newline ++
   "Memory_free  : " ++ decimal (free_mem_mib s) ++ nnbsp ++ "MiB" ++ newline ++
   "Memory_total : " ++ decimal (total_mem_mib s) ++ nnbsp ++ "MiB" ++ newline ++
   "CPU_load_1m  : " ++ decimal (load_pct s) ++ nnbsp ++ "%" ++ newline ++
   "Disk_io_rate : " ++ decimal (io_rate_sps s) ++ nbsp ++ "sectors/s" ++ newline)%string.

(** The critical section of [proc_show]: [s = snapshot] under [snap_lock]. *)
Definition read_snapshot : M sys_snapshot := gets snapshot.

(** [proc_show]: [m] is the text already in the seq_file; the result is the
    copy [s] taken from the store, the new text and the return value. *)
Definition proc_show (m : string) : M (sys_snapshot * string * Z) :=
  s <- read_snapshot ;;
  ret (s, (m ++ render s)%string, 0).

Definition ENOMEM : Z := 12.

Section Lifecycle.

Variable k : kconfig.

(** [sys_health_init]: [proc_create_ok] tells whether [proc_create]
    returned an entry, [jiffies] is the tick counter when the timer is
    armed. *)
Definition sys_health_init (proc_create_ok : bool) (jiffies : Z) : M Z :=
  printk Info_loaded ;;
  if proc_create_ok then
    modify (set_proc_entry true) ;;
    mod_timer_5s k jiffies ;;
    ret 0
  else
    ret (- ENOMEM).

Definition sys_health_exit : M unit :=
  modify (set_poll_timer None) ;;
  entry <- gets proc_entry ;;
  when entry (modify (set_proc_entry false)) ;;
  printk Info_unloaded.

(** Consecutive runs of the timer callback, one per element of [hs]. *)
Fixpoint run_ticks (hs : list host) : M unit :=
  match hs with
  | [] => ret tt
  | h :: hs' => poll_metrics k h ;; run_ticks hs'
  end.

End Lifecycle.

(** Two builds.  Both are 64-bit with 4 KiB pages and HZ = 250, where one
    jiffy is 4 ms. *)
Definition hz250_msecs_to_jiffies (m : Z) : Z := (m + 3) / 4.
Definition hz250_jiffies_to_msecs (j : Z) : Z := 4 * j.

(** A kernel where the disk iterator is gone: the fallback path is built. *)
Definition build_fallback : kconfig :=
  {| BITS_PER_LONG := 64; FSHIFT := 11; PAGE_SIZE := 4096;
     HAVE_DISK_STATS := true; HAVE_DISK_ITER := false;
     msecs_to_jiffies := hz250_msecs_to_jiffies;
     jiffies_to_msecs := hz250_jiffies_to_msecs |}.

(** A kernel with both the iterator and the sector statistics. *)
Definition build_blk : kconfig :=
  {| BITS_PER_LONG := 64; FSHIFT := 11; PAGE_SIZE := 4096;
     HAVE_DISK_STATS := true; HAVE_DISK_ITER := true;
     msecs_to_jiffies := hz250_msecs_to_jiffies;
     jiffies_to_msecs := hz250_jiffies_to_msecs |}.

(** Lines a piece of module code added to the kernel log. *)
Definition emitted (before after : module_state) : list printk_line :=
  skipn (List.length (dmesg before)) (dmesg after).

Definition is_alert (l : printk_line) : bool :=
  match l with
  | Alert_mem _ _ | Alert_cpu _ _ | Alert_io _ _ => true
  | _ => false
  end.

Definition is_io_fallback (l : printk_line) : bool :=
  match l with
  | Info_io_fallback => true
  | _ => false
  end.

Definition count_lines (p : printk_line -> bool) (ls : list printk_line) : nat :=
  List.length (filter p ls).

(** ** Readers running concurrently with the sampler

    [poll_metrics] and [proc_show] touch the shared [snapshot] only between
    [spin_lock(&snap_lock)] and [spin_unlock(&snap_lock)].  A structure
    assignment is not one machine operation: it is modelled as one store
    or load per member, so that a thread can be preempted between any two
    members.  A scheduler picks which thread takes its next step.

    What the lock does depends on the build.  [Module Concurrent] is the
    build with CONFIG_SMP, where [spin_lock] takes a real lock: whoever
    finds it held spins.  [poll_metrics] is a timer callback and runs as
    a softirq; when the timer fires on the CPU of a reader that holds the
    lock, the callback spins on that CPU and the reader gets no further
    step, which is one of the schedules of this model.  The model is about
    what the threads can observe; it says nothing about progress, that is,
    about how long a thread spins.  [Module Uniprocessor] below is the build
    without CONFIG_SMP, where [spin_lock] takes no lock at all. *)

Module Concurrent.

Inductive field : Type :=
| F_ts_ms | F_free_mem_mib | F_total_mem_mib | F_load_pct | F_io_rate_sps.

Definition all_fields : list field :=
  [F_ts_ms; F_free_mem_mib; F_total_mem_mib; F_load_pct; F_io_rate_sps].

Definition field_eqb (f g : field) : bool :=
  match f, g with
  | F_ts_ms, F_ts_ms | F_free_mem_mib, F_free_mem_mib
  | F_total_mem_mib, F_total_mem_mib | F_load_pct, F_load_pct
  | F_io_rate_sps, F_io_rate_sps => true
  | _, _ => false
  end.

Definition get_field (f : field) (s : sys_snapshot) : Z :=
  match f with
  | F_ts_ms => ts_ms s
  | F_free_mem_mib => free_mem_mib s
  | F_total_mem_mib => total_mem_mib s
  | F_load_pct => load_pct s
  | F_io_rate_sps => io_rate_sps s
  end.

Definition set_field (f : field) (v : Z) (s : sys_snapshot) : sys_snapshot :=
  match f with
  | F_ts_ms =>
      {| ts_ms := v; free_mem_mib := free_mem_mib s; total_mem_mib := total_mem_mib s;
         load_pct := load_pct s; io_rate_sps := io_rate_sps s |}
  | F_free_mem_mib =>
      {| ts_ms := ts_ms s; free_mem_mib := v; total_mem_mib := total_mem_mib s;
         load_pct := load_pct s; io_rate_sps := io_rate_sps s |}
  | F_total_mem_mib =>
      {| ts_ms := ts_ms s; free_mem_mib := free_mem_mib s; total_mem_mib := v;
         load_pct := load_pct s; io_rate_sps := io_rate_sps s |}
  | F_load_pct =>
      {| ts_ms := ts_ms s; free_mem_mib := free_mem_mib s; total_mem_mib := total_mem_mib s;
         load_pct := v; io_rate_sps := io_rate_sps s |}
  | F_io_rate_sps =>
      {| ts_ms := ts_ms s; free_mem_mib := free_mem_mib s; total_mem_mib := total_mem_mib s;
         load_pct := load_pct s; io_rate_sps := v |}
  end.

(** One member of the assignment [dst = src]. *)
Definition copy_field (f : field) (src dst : sys_snapshot) : sys_snapshot :=
  set_field f (get_field f src) dst.

(** Where a thread is with respect to its critical section. *)
Inductive pc : Type :=
| Before                        (* about to call spin_lock *)
| Copying (todo : list field)   (* holds snap_lock, members left to copy *)
| After.                        (* has called spin_unlock *)

(** One call of [proc_show]: its place and its local [s]. *)
Record reader : Type := { r_pc : pc; r_s : sys_snapshot }.

(** The sampler: [w_todo] holds the [tmp] of the current and of the coming
    cycles, [w_done] the values already published, latest first. *)
Record writer : Type := {
  w_pc : pc;
  w_todo : list sys_snapshot;
  w_done : list sys_snapshot
}.

Record sys : Type := {
  snap_lock : bool;             (* true when held *)
  shared : sys_snapshot;        (* the global snapshot *)
  sampler : writer;
  readers : nat -> reader
}.

Inductive tid : Type :=
| Sampler
| Reader (i : nat).

Definition set_reader (i : nat) (r : reader) (rs : nat -> reader) : nat -> reader :=
  fun j => if Nat.eqb j i then r else rs j.

(** The next step of the sampler on a build with CONFIG_SMP.  [spin_lock]
    on a held lock spins: the state does not change. *)
Definition sampler_step (s : sys) : sys :=
  let w := sampler s in
  match w_todo w with
  | [] => s
  | tmp :: rest =>
      match w_pc w with
      | Before =>
          if snap_lock s then s
          else {| snap_lock := true; shared := shared s;
                  sampler := {| w_pc := Copying all_fields; w_todo := w_todo w;
                                w_done := w_done w |};
                  readers := readers s |}
      | Copying (f :: fs) =>
          {| snap_lock := snap_lock s; shared := copy_field f tmp (shared s);
             sampler := {| w_pc := Copying fs; w_todo := w_todo w; w_done := w_done w |};
             readers := readers s |}
      | Copying [] =>
          {| snap_lock := false; shared := shared s;
             sampler := {| w_pc := Before; w_todo := rest; w_done := tmp :: w_done w |};
             readers := readers s |}
      | After => s
      end
  end.

(** The next step of the [i]-th call of [proc_show]. *)
Definition reader_step (i : nat) (s : sys) : sys :=
  let r := readers s i in
  match r_pc r with
  | Before =>
      if snap_lock s then s
      else {| snap_lock := true; shared := shared s; sampler := sampler s;
              readers := set_reader i {| r_pc := Copying all_fields; r_s := r_s r |}
                                    (readers s) |}
  | Copying (f :: fs) =>
      {| snap_lock := snap_lock s; shared := shared s; sampler := sampler s;
         readers := set_reader i {| r_pc := Copying fs;
                                    r_s := copy_field f (shared s) (r_s r) |}
                               (readers s) |}
  | Copying [] =>
      {| snap_lock := false; shared := shared s; sampler := sampler s;
         readers := set_reader i {| r_pc := After; r_s := r_s r |} (readers s) |}
  | After => s
  end.

Definition step (t : tid) (s : sys) : sys :=
  match t with
  | Sampler => sampler_step s
  | Reader i => reader_step i s
  end.

(** An interleaving is the list of threads in the order they are given
    a step. *)
Definition run (sched : list tid) (s : sys) : sys :=
  fold_left (fun s t => step t s) sched s.

(** The system after [spin_lock_init]: the store holds the zero snapshot,
    the sampler has the cycles [cycles] ahead of it, and the local [s] of
    each reader holds whatever its stack held. *)
Definition boot (cycles : list sys_snapshot) (stack : nat -> sys_snapshot) : sys :=
  {| snap_lock := false; shared := zero_snapshot;
     sampler := {| w_pc := Before; w_todo := cycles; w_done := [] |};
     readers := fun i => {| r_pc := Before; r_s := stack i |} |}.

(** What a call of [proc_show] got from the store, once it has left its
    critical section. *)
Definition observed (s : sys) (i : nat) : option sys_snapshot :=
  match r_pc (readers s i) with
  | After => Some (r_s (readers s i))
  | _ => None
  end.

(** The value of the latest completed publish. *)
Definition latest (s : sys) : sys_snapshot := hd zero_snapshot (w_done (sampler s)).

(** *** Notions used in the statements *)

(** The thread is inside its critical section. *)
Definition in_cs (p : pc) : bool :=
  match p with
  | Copying _ => true
  | _ => false
  end.

(** The assignment [dst = src] is done up to the members in [todo]. *)
Definition copied (todo : list field) (src dst : sys_snapshot) : Prop :=
  forall f, ~ In f todo -> get_field f dst = get_field f src.

(** What holds in every state the system reaches from [boot cycles]. *)
Record inv (cycles : list sys_snapshot) (s : sys) : Prop := {
  inv_history : rev (w_done (sampler s)) ++ w_todo (sampler s) = cycles;
  inv_unlocked :
    snap_lock s = false ->
    in_cs (w_pc (sampler s)) = false /\ forall i, in_cs (r_pc (readers s i)) = false;
  inv_sampler_alone :
    in_cs (w_pc (sampler s)) = true -> forall i, in_cs (r_pc (readers s i)) = false;
  inv_reader_alone :
    forall i j, in_cs (r_pc (readers s i)) = true ->
                in_cs (r_pc (readers s j)) = true -> i = j;
  inv_stable : in_cs (w_pc (sampler s)) = false -> shared s = latest s;
  inv_sampler_copy :
    forall fs, w_pc (sampler s) = Copying fs ->
               exists tmp rest, w_todo (sampler s) = tmp :: rest /\
                                copied fs tmp (shared s);
  inv_reader_copy :
    forall i fs, r_pc (readers s i) = Copying fs ->
                 copied fs (shared s) (r_s (readers s i));
  inv_observed :
    forall i, r_pc (readers s i) = After ->
              In (r_s (readers s i)) (zero_snapshot :: w_done (sampler s))
}.

(** Two samples and an interleaving of the sampler with two readers:
    reader 0 asks for the lock while the sampler copies, reader 1 reads
    between the two publishes. *)
Definition sample_a : sys_snapshot :=
  {| ts_ms := 9000; free_mem_mib := 200; total_mem_mib := 16384;
     load_pct := 50; io_rate_sps := 0 |}.
Definition sample_b : sys_snapshot :=
  {| ts_ms := 14000; free_mem_mib := 90; total_mem_mib := 16384;
     load_pct := 85; io_rate_sps := 6000 |}.

Definition stale_stack (i : nat) : sys_snapshot :=
  {| ts_ms := 7; free_mem_mib := 7; total_mem_mib := 7; load_pct := 7; io_rate_sps := 7 |}.

Definition schedule_mixed : list tid :=
  (* the sampler publishes sample_a; reader 0 spins on the lock *)
  [Sampler; Sampler; Reader 0; Sampler; Sampler; Reader 0; Sampler; Sampler; Sampler] ++
  (* reader 1 reads; the sampler and reader 0 spin *)
  [Reader 1; Sampler; Reader 1; Reader 1; Reader 0; Reader 1; Reader 1; Reader 1; Reader 1] ++
  (* the sampler publishes sample_b; reader 0 spins *)
  [Sampler; Sampler; Reader 0; Sampler; Sampler; Sampler; Sampler; Sampler] ++
  (* reader 0 reads *)
  repeat (Reader 0) 7.

End Concurrent.

(** ** The build without CONFIG_SMP

    On a uniprocessor build [spin_lock] and [spin_unlock] only disable and
    enable preemption: they test and set nothing.  [proc_show] runs in
    process context and takes the plain [spin_lock], which leaves
    softirqs enabled; [poll_metrics] is the callback of [poll_timer]
    ([timer_setup] in [sys_health_init]) and runs as a softirq on the one
    CPU, on top of whatever was running there, to completion.  The state is
    that of [Module Concurrent]; [snap_lock] here records that a reader has
    preemption disabled, which keeps the other readers off the CPU. *)

Module Uniprocessor.

(** The assignment [dst = src], all members. *)
Definition assign (src dst : sys_snapshot) : sys_snapshot :=
  fold_left (fun d f => Concurrent.copy_field f src d) Concurrent.all_fields dst.

(** The timer fires: the critical section of [poll_metrics] runs from
    [spin_lock] to [spin_unlock] without waiting for anybody. *)
Definition timer_callback (s : Concurrent.sys) : Concurrent.sys :=
  let w := Concurrent.sampler s in
  match Concurrent.w_todo w with
  | [] => s
  | tmp :: rest =>
      {| Concurrent.snap_lock := Concurrent.snap_lock s;
         Concurrent.shared := assign tmp (Concurrent.shared s);
         Concurrent.sampler :=
           {| Concurrent.w_pc := Concurrent.Before; Concurrent.w_todo := rest;
              Concurrent.w_done := tmp :: Concurrent.w_done w |};
         Concurrent.readers := Concurrent.readers s |}
  end.

(** A reader steps as in [Module Concurrent]; a reader that finds
    preemption disabled by another one is not on the CPU. *)
Definition step (t : Concurrent.tid) (s : Concurrent.sys) : Concurrent.sys :=
  match t with
  | Concurrent.Sampler => timer_callback s
  | Concurrent.Reader i => Concurrent.reader_step i s
  end.

Definition run (sched : list Concurrent.tid) (s : Concurrent.sys) : Concurrent.sys :=
  fold_left (fun s t => step t s) sched s.

(** A reader has copied two members when the timer fires; it copies the
    other three afterwards. *)
Definition schedule_preempted : list Concurrent.tid :=
  [Concurrent.Reader 0; Concurrent.Reader 0; Concurrent.Reader 0;
   Concurrent.Sampler;
   Concurrent.Reader 0; Concurrent.Reader 0; Concurrent.Reader 0; Concurrent.Reader 0].

End Uniprocessor.

(** The interleavings of a build, by its CONFIG_SMP. *)
Definition run_on (CONFIG_SMP : bool) (sched : list Concurrent.tid) (s : Concurrent.sys)
  : Concurrent.sys :=
  if CONFIG_SMP then Concurrent.run sched s else Uniprocessor.run sched s.

(** ** Notions used in the statements *)

(** The fallback notice of one cycle: printed when the fallback path is
    built and the notice has not been printed yet. *)
Definition fallback_lines (k : kconfig) (st : module_state) : list printk_line :=
  if (HAVE_DISK_STATS k && HAVE_DISK_ITER k) || io_fallback_logged st then []
  else [Info_io_fallback].

(** The alerts of one cycle, for the sample [s] and the parameters as they
    are in [st], with the comparisons of the C code. *)
Definition cycle_alerts (s : sys_snapshot) (st : module_state) : list printk_line :=
  (if free_mem_mib s <? u32 (mem_threshold st)
   then [Alert_mem (free_mem_mib s) (mem_threshold st)] else []) ++
  (if load_pct s >? u32 (cpu_threshold st)
   then [Alert_cpu (load_pct s) (cpu_threshold st)] else []) ++
  (if io_rate_sps s >? u32 (io_threshold st)
   then [Alert_io (io_rate_sps s) (io_threshold st)] else []).


(** The rate in the words of the specification: a difference that
    saturates at zero, divided by the interval. *)
Definition saturating_rate (counter previous interval_seconds : Z) : Z :=
  Z.max 0 (counter - previous) / interval_seconds.

Definition is_Alert_mem (l : printk_line) : bool :=
  match l with Alert_mem _ _ => true | _ => false end.
Definition is_Alert_cpu (l : printk_line) : bool :=
  match l with Alert_cpu _ _ => true | _ => false end.
Definition is_Alert_io (l : printk_line) : bool :=
  match l with Alert_io _ _ => true | _ => false end.

(** Concrete inputs used in the examples below. *)

(** A host with plenty of free memory, light load and [pages] pages of
    paging traffic since boot. *)
Definition host_calm (pages now : Z) : host :=
  {| si_totalram := 16384 * 1024; si_freeram := 200 * 1024;
     avenrun_1 := 1024; num_online_cpus := 1; disks := [];
     ev_PGPGIN := pages; ev_PGPGOUT := 0;
     jiffies_stamp := now; jiffies_rearm := now |}.

(** A host short of memory, loaded, with [pages] pages of paging traffic. *)
Definition host_hot (pages now : Z) : host :=
  {| si_totalram := 16384 * 1024; si_freeram := 90 * 1024;
     avenrun_1 := 1741; num_online_cpus := 1; disks := [];
     ev_PGPGIN := pages; ev_PGPGOUT := 0;
     jiffies_stamp := now; jiffies_rearm := now |}.

(** The module with the default parameters and a baseline of 8000 sectors. *)
Definition state_warm : module_state := set_last_io_ticks 8000 module_loaded.

Definition set_thresholds (mem cpu io : Z) (st : module_state) : module_state :=
  {| mem_threshold := mem; cpu_threshold := cpu; io_threshold := io;
     poll_timer := poll_timer st; last_io_ticks := last_io_ticks st;
     io_fallback_logged := io_fallback_logged st; proc_entry := proc_entry st;
     snapshot := snapshot st; dmesg := dmesg st |}.

(** The host [h] with the timer re-armed [delay] jiffies after the stamp. *)
Definition rearm_after (delay : Z) (h : host) : host :=
  {| si_totalram := si_totalram h; si_freeram := si_freeram h;
     avenrun_1 := avenrun_1 h; num_online_cpus := num_online_cpus h;
     disks := disks h; ev_PGPGIN := ev_PGPGIN h; ev_PGPGOUT := ev_PGPGOUT h;
     jiffies_stamp := jiffies_stamp h; jiffies_rearm := jiffies_stamp h + delay |}.

(** Sum of a list of integers. *)
Definition sum_Z (l : list Z) : Z := fold_right Z.add 0 l.

(** Consecutive calls of the delta step of [collect_disk_ios], one per
    tick, with the cumulative counters [cs]; the result is the list of the
    rates returned. *)
Fixpoint sample_counters (cs : list Z) : M (list Z) :=
  match cs with
  | [] => ret []
  | c :: cs' =>
      r <- io_delta_rate c ;;
      rs <- sample_counters cs' ;;
      ret (r :: rs)
  end.

(** A counter that never decreases from one sample to the next, starting
    above [prev], with every increase small enough for the [u32] rate. *)
Fixpoint steady_counters (prev : Z) (cs : list Z) : Prop :=
  match cs with
  | [] => True
  | c :: cs' =>
      prev <= c /\ c < 2 ^ 64 /\ (c - prev) / 5 < 2 ^ 32 /\ steady_counters c cs'
  end.

(** The characters ['0'] to ['9']. *)
Definition is_digit (c : ascii) : bool :=
  let n := nat_of_ascii c in (48 <=? n)%nat && (n <=? 57)%nat.

Fixpoint all_digits (s : string) : bool :=
  match s with
  | EmptyString => true
  | String c s' => is_digit c && all_digits s'
  end.

(** All fields of a snapshot are non-negative. *)
Definition nonneg_snapshot (s : sys_snapshot) : Prop :=
  0 <= ts_ms s /\ 0 <= free_mem_mib s /\ 0 <= total_mem_mib s /\
  0 <= load_pct s /\ 0 <= io_rate_sps s.

(** A line that a cycle of the sampler may print. *)
Definition is_cycle_line (l : printk_line) : bool := is_io_fallback l || is_alert l.

(** A schedule in which only readers run. *)
Definition only_readers (sched : list Concurrent.tid) : bool :=
  forallb (fun t => match t with
                    | Concurrent.Reader _ => true
                    | Concurrent.Sampler => false
                    end) sched.

(** * Properties *)

(** ** Machine arithmetic *)

Lemma wrap_range (w z : Z) : 0 <= w -> 0 <= wrap w z < 2 ^ w.
Proof. intros Hw. unfold wrap. apply Z.mod_pos_bound. apply Z.pow_pos_nonneg; lia. Qed.

Lemma u32_range (z : Z) : is_u32 (u32 z).
Proof. unfold is_u32, u32. apply wrap_range. lia. Qed.

Lemma u64_range (z : Z) : is_u64 (u64 z).
Proof. unfold is_u64, u64. apply wrap_range. lia. Qed.

Lemma u32_id (z : Z) : is_u32 z -> u32 z = z.
Proof. unfold is_u32, u32, wrap. intros H. apply Z.mod_small. exact H. Qed.

Lemma u64_id (z : Z) : is_u64 z -> u64 z = z.
Proof. unfold is_u64, u64, wrap. intros H. apply Z.mod_small. exact H. Qed.

(** Conversion of a negative [int] to [unsigned int]. *)
Lemma u32_of_negative (z : Z) : - 2 ^ 32 <= z < 0 -> u32 z = 2 ^ 32 + z.
Proof.
  intros H. unfold u32, wrap.
  symmetry. apply (Z.mod_unique_pos z (2 ^ 32) (-1) (2 ^ 32 + z)); lia.
Qed.

(** Wrapped subtraction of a larger from a smaller [u64]. *)
Lemma u64_sub_borrow (a b : Z) : is_u64 a -> is_u64 b -> a < b -> u64 (a - b) = 2 ^ 64 + a - b.
Proof.
  unfold is_u64. intros Ha Hb Hlt. unfold u64, wrap.
  symmetry. apply (Z.mod_unique_pos (a - b) (2 ^ 64) (-1) (2 ^ 64 + a - b)); lia.
Qed.

Lemma shiftr_10_mono (a b : Z) : a <= b -> Z.shiftr a 10 <= Z.shiftr b 10.
Proof.
  intros H. rewrite !Z.shiftr_div_pow2 by lia. apply Z.div_le_mono; lia.
Qed.

(** ** The load computation *)

Lemma online_cores_range (h : host) : 1 <= online_cores h < 2 ^ 32.
Proof.
  unfold online_cores. pose proof (u32_range (num_online_cpus h)) as H.
  unfold is_u32 in H. change (u32 1) with 1. lia.
Qed.

Lemma div_u64_defined (n d : Z) (st : module_state) :
  1 <= d < 2 ^ 32 -> div_u64 n d st = Ok (u64 n / d) st.
Proof.
  intros Hd. unfold div_u64. rewrite (u32_id d) by (unfold is_u32; lia).
  destruct (Z.eqb_spec d 0) as [E | _]; [lia | reflexivity].
Qed.

Lemma collect_load_percent_run (k : kconfig) (h : host) (st : module_state) :
  collect_load_percent k h st =
    Ok (u32 (u64 (Z.shiftr (u64 (avenrun_1 h * 100)) (FSHIFT k)) / online_cores h)) st.
Proof.
  unfold collect_load_percent, bind.
  rewrite div_u64_defined by apply online_cores_range. reflexivity.
Qed.

(** C8. The load computation never divides by zero: whatever number of
    online cores the kernel reports, zero included, the divisor is the
    maximum of that number and one, it is at least one, and
    [collect_load_percent] returns the quotient instead of trapping. *)
Theorem collect_load_percent_divisor_floored (k : kconfig) (h : host) (st : module_state) :
  online_cores h = Z.max (u32 (num_online_cpus h)) 1 /\
  1 <= online_cores h /\
  div_u64 (Z.shiftr (u64 (avenrun_1 h * 100)) (FSHIFT k)) (online_cores h) st
    = Ok (u64 (Z.shiftr (u64 (avenrun_1 h * 100)) (FSHIFT k)) / online_cores h) st /\
  collect_load_percent k h st
    = Ok (u32 (u64 (Z.shiftr (u64 (avenrun_1 h * 100)) (FSHIFT k)) / online_cores h)) st.
Proof.
  repeat split.
  - apply online_cores_range.
  - apply div_u64_defined, online_cores_range.
  - apply collect_load_percent_run.
Qed.

(** With no core reported online the divisor is one. *)
Example online_cores_zero :
  online_cores {| si_totalram := 0; si_freeram := 0; avenrun_1 := 4096;
                  num_online_cpus := 0; disks := []; ev_PGPGIN := 0; ev_PGPGOUT := 0;
                  jiffies_stamp := 0; jiffies_rearm := 0 |} = 1.
Proof. reflexivity. Qed.

(** ** The rate estimator *)

Lemma io_delta_rate_first (c : Z) (st : module_state) :
  last_io_ticks st = 0 ->
  io_delta_rate c st = Ok 0 (set_last_io_ticks c st).
Proof.
  intros H. unfold io_delta_rate, bind, gets, modify, ret. rewrite H. reflexivity.
Qed.

Lemma io_delta_rate_next (c : Z) (st : module_state) :
  last_io_ticks st <> 0 ->
  io_delta_rate c st =
    Ok (u32 (u64 (c - last_io_ticks st) / 5)) (set_last_io_ticks c st).
Proof.
  intros H. unfold io_delta_rate, bind, gets, modify, ret.
  destruct (Z.eqb_spec (last_io_ticks st) 0) as [E | _]; [contradiction |].
  rewrite div_u64_defined by lia.
  rewrite (u64_id (u64 _)) by apply u64_range. reflexivity.
Qed.

(** ** One cycle of the sampler *)

Lemma sum_disk_sectors_range (k : kconfig) (ds : list (Z * Z)) :
  is_u64 (sum_disk_sectors k ds).
Proof.
  unfold sum_disk_sectors.
  assert (G : forall acc, is_u64 acc ->
            is_u64 (fold_left (fun io_total d => u64 (io_total + ulong k (fst d + snd d))) ds acc)).
  { induction ds as [| d ds IH]; intros acc Hacc; simpl.
    - exact Hacc.
    - apply IH, u64_range. }
  apply G. unfold is_u64. lia.
Qed.

Lemma read_io_total_run (k : kconfig) (h : host) (st : module_state) :
  exists io_total,
    is_u64 io_total /\
    read_io_total k h st =
      Ok io_total
         (if (HAVE_DISK_STATS k && HAVE_DISK_ITER k) || io_fallback_logged st then st
          else set_io_fallback_logged true (log_line Info_io_fallback st)).
Proof.
  unfold read_io_total.
  destruct (HAVE_DISK_STATS k && HAVE_DISK_ITER k); simpl.
  - eexists. split; [apply sum_disk_sectors_range | reflexivity].
  - unfold bind, gets, when, ret, printk, modify.
    destruct (io_fallback_logged st); simpl;
      (eexists; split; [apply u64_range | reflexivity]).
Qed.

Lemma io_delta_rate_run (c : Z) (st : module_state) :
  io_delta_rate c st =
    Ok (if last_io_ticks st =? 0 then 0 else u32 (u64 (c - last_io_ticks st) / 5))
       (set_last_io_ticks c st).
Proof.
  destruct (Z.eqb_spec (last_io_ticks st) 0) as [E | E].
  - apply io_delta_rate_first, E.
  - apply io_delta_rate_next, E.
Qed.

Lemma poll_metrics_run (k : kconfig) (h : host) (st : module_state) :
  exists io_total st',
    poll_metrics k h st = Ok tt st' /\
    (mem_threshold st' = mem_threshold st /\
     cpu_threshold st' = cpu_threshold st /\
     io_threshold st' = io_threshold st /\
     proc_entry st' = proc_entry st) /\
    (ts_ms (snapshot st') = u32 (jiffies_to_msecs k (jiffies_stamp h)) /\
     free_mem_mib (snapshot st') = u32 (Z.shiftr (si_freeram h) 10) /\
     total_mem_mib (snapshot st') = u32 (Z.shiftr (si_totalram h) 10) /\
     load_pct (snapshot st') =
       u32 (u64 (Z.shiftr (u64 (avenrun_1 h * 100)) (FSHIFT k)) / online_cores h) /\
     io_rate_sps (snapshot st') =
       (if last_io_ticks st =? 0 then 0
        else u32 (u64 (io_total - last_io_ticks st) / 5))) /\
    (is_u64 io_total /\ last_io_ticks st' = io_total) /\
    io_fallback_logged st' =
      (if HAVE_DISK_STATS k && HAVE_DISK_ITER k then io_fallback_logged st else true) /\
    dmesg st' = dmesg st ++ fallback_lines k st ++ cycle_alerts (snapshot st') st /\
    poll_timer st' =
      Some (ulong k (jiffies_rearm h + ulong k (msecs_to_jiffies k 5000))).
Proof.
  destruct (read_io_total_run k h st) as (io_total & R1 & E1).
  exists io_total.
  unfold poll_metrics.
  unfold bind at 1. unfold collect_memory at 1. unfold ret at 1.
  unfold bind at 1. rewrite collect_load_percent_run.
  unfold bind at 1. unfold collect_disk_ios. unfold bind at 1.
  rewrite E1, io_delta_rate_run.
  unfold fallback_lines, cycle_alerts.
  unfold publish, mod_timer_5s, printk, bind, gets, modify, when, ret.
  cbn [fst snd free_mem_mib load_pct io_rate_sps].
  destruct (HAVE_DISK_STATS k && HAVE_DISK_ITER k);
    destruct (io_fallback_logged st) eqn:L;
    cbn [orb];
    repeat (cbn [set_last_io_ticks set_snapshot set_io_fallback_logged log_line
                 mem_threshold cpu_threshold io_threshold last_io_ticks];
            match goal with
            | |- context [if ?c then (fun s => Ok tt (log_line _ s)) else _] => destruct c eqn:?
            end;
            cbv beta iota);
    (eexists; split; [reflexivity |]);
    cbn [set_poll_timer log_line set_last_io_ticks set_snapshot set_io_fallback_logged
         mem_threshold cpu_threshold io_threshold last_io_ticks dmesg snapshot
         io_fallback_logged poll_timer proc_entry
         ts_ms free_mem_mib total_mem_mib load_pct io_rate_sps];
    repeat rewrite <- app_assoc; cbn [app];
    repeat match goal with
           | H : (_ <? _) = _ |- _ => rewrite H; clear H
           | H : (_ >? _) = _ |- _ => rewrite H; clear H
           end;
    rewrite ?L, ?app_nil_r;
    repeat split; try reflexivity; apply R1.
Qed.

Lemma emitted_app (st st' : module_state) (ls : list printk_line) :
  dmesg st' = dmesg st ++ ls -> emitted st st' = ls.
Proof.
  intros E. unfold emitted. rewrite E, skipn_app, skipn_all, Nat.sub_diag. reflexivity.
Qed.

(** ** The rate estimator, continued *)

(** C2, counterexample.  A first sample of 0 leaves [last_io_ticks] at the
    value that means "no baseline": the second call, ten sectors later,
    returns 0 and not 10 / 5.  And a second sample 5 * 2^32 sectors above
    the baseline 1 returns 0 and not 2^32, which the [u32] result cannot
    hold. *)
Lemma rate_second_call_not_k_div_5 :
  (io_delta_rate 0 module_loaded = Ok 0 (set_last_io_ticks 0 module_loaded) /\
   io_delta_rate (0 + 10) (set_last_io_ticks 0 module_loaded)
     = Ok 0 (set_last_io_ticks 10 module_loaded) /\
   0 <> 10 / 5) /\
  (io_delta_rate 1 module_loaded = Ok 0 (set_last_io_ticks 1 module_loaded) /\
   io_delta_rate (1 + 5 * 2 ^ 32) (set_last_io_ticks 1 module_loaded)
     = Ok 0 (set_last_io_ticks (1 + 5 * 2 ^ 32) module_loaded) /\
   0 <> (5 * 2 ^ 32) / 5).
Proof.
  repeat split; try reflexivity; vm_compute; discriminate.
Qed.

(** C2, as amended.  With no baseline yet ([last_io_ticks] is 0) the first
    call returns rate 0 and records the counter [c]; when [c] is not 0, a
    second call with counter [c + k] returns [k / 5], rounded toward zero,
    as long as that quotient fits the [u32] result. *)
Theorem rate_first_call_then_delta (c k : Z) (st : module_state) :
  last_io_ticks st = 0 ->
  0 < c -> 0 <= k -> c + k < 2 ^ 64 -> k / 5 < 2 ^ 32 ->
  io_delta_rate c st = Ok 0 (set_last_io_ticks c st) /\
  last_io_ticks (set_last_io_ticks c st) = c /\
  io_delta_rate (c + k) (set_last_io_ticks c st)
    = Ok (Z.quot k 5) (set_last_io_ticks (c + k) st).
Proof.
  intros H0 Hc Hk Hck Hq. split; [apply io_delta_rate_first, H0 |].
  split; [reflexivity |].
  rewrite io_delta_rate_next by (simpl; lia). simpl.
  replace (c + k - c) with k by lia.
  rewrite (u64_id k) by (unfold is_u64; lia).
  rewrite u32_id by (unfold is_u32; split; [apply Z.div_pos; lia | exact Hq]).
  rewrite Z.quot_div_nonneg by lia. reflexivity.
Qed.

Lemma rate_first_call_then_delta_witness :
  io_delta_rate 1000 module_loaded = Ok 0 (set_last_io_ticks 1000 module_loaded) /\
  last_io_ticks (set_last_io_ticks 1000 module_loaded) = 1000 /\
  io_delta_rate (1000 + 12) (set_last_io_ticks 1000 module_loaded)
    = Ok (Z.quot 12 5) (set_last_io_ticks (1000 + 12) module_loaded).
Proof.
  apply (rate_first_call_then_delta 1000 12 module_loaded); [reflexivity | lia | lia | lia |].
  vm_compute. reflexivity.
Defined.

(** C3, counterexample.  With baseline 10 a counter of 5 gives the rate
    858993458, where a difference saturating at zero gives 0. *)
Lemma rate_of_decreasing_counter_not_saturated :
  io_delta_rate 5 (set_last_io_ticks 10 module_loaded)
    = Ok 858993458 (set_last_io_ticks 5 module_loaded) /\
  saturating_rate 5 10 5 = 0.
Proof. split; reflexivity. Qed.

(** C3, as amended.  After a baseline has been established
    ([last_io_ticks] is not 0) the rate is the difference counter minus
    previous computed modulo 2^64, divided by 5 and cut to 32 bits; when the
    counter is below the previous value the difference wraps around to
    2^64 + counter - previous.  Afterwards the previous value is the
    counter. *)
Theorem rate_delta_wraps (c : Z) (st : module_state) :
  last_io_ticks st <> 0 -> is_u64 (last_io_ticks st) -> is_u64 c ->
  io_delta_rate c st
    = Ok (u32 (u64 (c - last_io_ticks st) / 5)) (set_last_io_ticks c st) /\
  last_io_ticks (set_last_io_ticks c st) = c /\
  (last_io_ticks st <= c -> u64 (c - last_io_ticks st) = c - last_io_ticks st) /\
  (c < last_io_ticks st -> u64 (c - last_io_ticks st) = 2 ^ 64 + c - last_io_ticks st).
Proof.
  intros Hne Hp Hc. split; [apply io_delta_rate_next, Hne |].
  split; [reflexivity |]. unfold is_u64 in *. split; intros Hle.
  - apply u64_id. unfold is_u64. lia.
  - apply u64_sub_borrow; unfold is_u64; lia.
Qed.

Lemma rate_delta_wraps_witness :
  io_delta_rate 5 (set_last_io_ticks 10 module_loaded)
    = Ok (u32 (u64 (5 - 10) / 5)) (set_last_io_ticks 5 (set_last_io_ticks 10 module_loaded)) /\
  last_io_ticks (set_last_io_ticks 5 (set_last_io_ticks 10 module_loaded)) = 5 /\
  (10 <= 5 -> u64 (5 - 10) = 5 - 10) /\
  (5 < 10 -> u64 (5 - 10) = 2 ^ 64 + 5 - 10).
Proof.
  apply (rate_delta_wraps 5 (set_last_io_ticks 10 module_loaded)).
  - simpl. lia.
  - unfold is_u64. simpl. lia.
  - unfold is_u64. lia.
Defined.

(** ** Memory *)

(** C7, counterexample.  16 Pi pages of total memory and half of that free:
    the conversion to [u32] cuts the total to 0 MiB and leaves the free
    memory at 2^31 MiB. *)
Lemma published_memory_order_lost :
  let h := {| si_totalram := 2 ^ 42; si_freeram := 2 ^ 41;
              avenrun_1 := 0; num_online_cpus := 1; disks := [];
              ev_PGPGIN := 0; ev_PGPGOUT := 0;
              jiffies_stamp := 0; jiffies_rearm := 0 |} in
  si_freeram h <= si_totalram h /\
  match poll_metrics build_fallback h module_loaded with
  | Ok _ st' =>
      free_mem_mib (snapshot st') = 2 ^ 31 /\ total_mem_mib (snapshot st') = 0 /\
      ~ free_mem_mib (snapshot st') <= total_mem_mib (snapshot st')
  | Oops => False
  end.
Proof.
  split; [vm_compute; discriminate |].
  vm_compute. repeat split; try reflexivity. intros H. apply H. reflexivity.
Qed.

(** C7, as amended.  When the provider reports free <= total pages and the
    total is below 2^42 pages, so that the total in MiB fits the [u32]
    field, every snapshot a cycle publishes has free_mem_mib <=
    total_mem_mib. *)
Theorem published_memory_ordered (k : kconfig) (h : host) (st : module_state) :
  0 <= si_freeram h -> si_freeram h <= si_totalram h -> si_totalram h < 2 ^ 42 ->
  exists st',
    poll_metrics k h st = Ok tt st' /\
    free_mem_mib (snapshot st') <= total_mem_mib (snapshot st').
Proof.
  intros H0 Hle Hlt.
  destruct (poll_metrics_run k h st) as (io & st' & E & _ & (_ & Ef & Et & _) & _).
  exists st'. split; [exact E |]. rewrite Ef, Et.
  assert (B : forall x, 0 <= x < 2 ^ 42 -> is_u32 (Z.shiftr x 10)).
  { intros x Hx. unfold is_u32. rewrite Z.shiftr_div_pow2 by lia. split.
    - apply Z.div_pos; lia.
    - apply Z.div_lt_upper_bound; lia. }
  rewrite !u32_id by (apply B; lia).
  apply shiftr_10_mono, Hle.
Qed.

Lemma published_memory_ordered_witness :
  exists st',
    poll_metrics build_fallback (host_calm 1000 0) module_loaded = Ok tt st' /\
    free_mem_mib (snapshot st') <= total_mem_mib (snapshot st').
Proof.
  apply (published_memory_ordered build_fallback (host_calm 1000 0) module_loaded).
  - vm_compute. discriminate.
  - vm_compute. discriminate.
  - vm_compute. reflexivity.
Defined.

(** ** Threshold alerts *)



Lemma cycle_has_mem_alert (k : kconfig) (s : sys_snapshot) (st : module_state) :
  existsb is_Alert_mem (fallback_lines k st ++ cycle_alerts s st)
    = (free_mem_mib s <? u32 (mem_threshold st)).
Proof.
  unfold fallback_lines, cycle_alerts.
  destruct (_ || _), (free_mem_mib s <? _), (load_pct s >? _), (io_rate_sps s >? _);
    reflexivity.
Qed.

Lemma cycle_has_cpu_alert (k : kconfig) (s : sys_snapshot) (st : module_state) :
  existsb is_Alert_cpu (fallback_lines k st ++ cycle_alerts s st)
    = (load_pct s >? u32 (cpu_threshold st)).
Proof.
  unfold fallback_lines, cycle_alerts.
  destruct (_ || _), (free_mem_mib s <? _), (load_pct s >? _), (io_rate_sps s >? _);
    reflexivity.
Qed.

Lemma cycle_has_io_alert (k : kconfig) (s : sys_snapshot) (st : module_state) :
  existsb is_Alert_io (fallback_lines k st ++ cycle_alerts s st)
    = (io_rate_sps s >? u32 (io_threshold st)).
Proof.
  unfold fallback_lines, cycle_alerts.
  destruct (_ || _), (free_mem_mib s <? _), (load_pct s >? _), (io_rate_sps s >? _);
    reflexivity.
Qed.

Lemma u32_of_nonneg_int (z : Z) : is_int z -> 0 <= z -> u32 z = z.
Proof. unfold is_int. intros H H0. apply u32_id. unfold is_u32. lia. Qed.




Example scenario_three_alerts :
  match poll_metrics build_fallback (host_hot 4750 0) state_warm with
  | Ok _ st' =>
      (free_mem_mib (snapshot st'), load_pct (snapshot st'), io_rate_sps (snapshot st'))
        = (90, 85, 6000) /\
      filter is_alert (emitted state_warm st')
        = [Alert_mem 90 100; Alert_cpu 85 80; Alert_io 6000 5000]
  | Oops => False
  end.
Proof. vm_compute. split; reflexivity. Qed.

Example scenario_no_alert :
  match poll_metrics build_fallback (host_calm 1063 0) state_warm with
  | Ok _ st' =>
      (free_mem_mib (snapshot st'), load_pct (snapshot st'), io_rate_sps (snapshot st'))
        = (200, 50, 100) /\
      filter is_alert (emitted state_warm st') = []
  | Oops => False
  end.
Proof. vm_compute. split; reflexivity. Qed.

(** A field equal to its limit prints nothing. *)
Example scenario_at_the_limits :
  let st := set_thresholds 200 50 100 state_warm in
  match poll_metrics build_fallback (host_calm 1063 0) st with
  | Ok _ st' => filter is_alert (emitted st st') = []
  | Oops => False
  end.
Proof. vm_compute. reflexivity. Qed.

(** C10, counterexample.  With mem_threshold = -1 a sample of 2^32 - 1 MiB
    free prints no memory alert, and with cpu_threshold = -2^31 a load of
    3000000000 % prints the CPU alert. *)
Lemma negative_threshold_not_absolute :
  let st := set_thresholds (-1) (- 2 ^ 31) 5000 state_warm in
  let h := {| si_totalram := (2 ^ 32 - 1) * 1024; si_freeram := (2 ^ 32 - 1) * 1024;
              avenrun_1 := 61440000000; num_online_cpus := 1; disks := [];
              ev_PGPGIN := 1000; ev_PGPGOUT := 0;
              jiffies_stamp := 0; jiffies_rearm := 0 |} in
  match poll_metrics build_fallback h st with
  | Ok _ st' =>
      free_mem_mib (snapshot st') = 2 ^ 32 - 1 /\
      load_pct (snapshot st') = 3000000000 /\
      filter is_alert (emitted st st') = [Alert_cpu 3000000000 (- 2 ^ 31)]
  | Oops => False
  end.
Proof. vm_compute. repeat split; reflexivity. Qed.

(** C10, as amended.  A negative limit [t] takes part in the comparison as
    2^32 + t.  With a negative mem_threshold the memory alert is printed
    iff free_mem_mib < 2^32 + mem_threshold, so in every cycle whose sample
    has less than 2^31 MiB free; with a negative cpu_threshold or
    io_threshold the alert is printed iff the field is above 2^32 + t, so
    in no cycle whose field is at most 2^31. *)
Theorem negative_threshold_as_unsigned (k : kconfig) (h : host) (st : module_state) :
  is_int (mem_threshold st) -> is_int (cpu_threshold st) -> is_int (io_threshold st) ->
  exists st',
    poll_metrics k h st = Ok tt st' /\
    (mem_threshold st < 0 ->
       (existsb is_Alert_mem (emitted st st') = true
          <-> free_mem_mib (snapshot st') < 2 ^ 32 + mem_threshold st) /\
       (free_mem_mib (snapshot st') < 2 ^ 31 ->
          existsb is_Alert_mem (emitted st st') = true)) /\
    (cpu_threshold st < 0 ->
       (existsb is_Alert_cpu (emitted st st') = true
          <-> load_pct (snapshot st') > 2 ^ 32 + cpu_threshold st) /\
       (load_pct (snapshot st') <= 2 ^ 31 ->
          existsb is_Alert_cpu (emitted st st') = false)) /\
    (io_threshold st < 0 ->
       (existsb is_Alert_io (emitted st st') = true
          <-> io_rate_sps (snapshot st') > 2 ^ 32 + io_threshold st) /\
       (io_rate_sps (snapshot st') <= 2 ^ 31 ->
          existsb is_Alert_io (emitted st st') = false)).
Proof.
  unfold is_int. intros Im Ic Ii.
  destruct (poll_metrics_run k h st) as (io & st' & E & _ & _ & _ & _ & D & _).
  exists st'. split; [exact E |].
  rewrite (emitted_app st st' _ D).
  rewrite cycle_has_mem_alert, cycle_has_cpu_alert, cycle_has_io_alert.
  rewrite !Z.gtb_ltb.
  repeat split; intros;
    rewrite u32_of_negative in * by lia;
    try (apply Z.ltb_lt; lia);
    try (apply Z.ltb_ge; lia);
    match goal with
    | H : (_ <? _) = true |- _ => apply Z.ltb_lt in H; lia
    end.
Qed.

Lemma negative_threshold_as_unsigned_witness :
  let st := set_thresholds (-1) (-1) (-1) state_warm in
  exists st',
    poll_metrics build_fallback (host_hot 4750 0) st = Ok tt st' /\
    (-1 < 0 ->
       (existsb is_Alert_mem (emitted st st') = true
          <-> free_mem_mib (snapshot st') < 2 ^ 32 + -1) /\
       (free_mem_mib (snapshot st') < 2 ^ 31 ->
          existsb is_Alert_mem (emitted st st') = true)) /\
    (-1 < 0 ->
       (existsb is_Alert_cpu (emitted st st') = true
          <-> load_pct (snapshot st') > 2 ^ 32 + -1) /\
       (load_pct (snapshot st') <= 2 ^ 31 ->
          existsb is_Alert_cpu (emitted st st') = false)) /\
    (-1 < 0 ->
       (existsb is_Alert_io (emitted st st') = true
          <-> io_rate_sps (snapshot st') > 2 ^ 32 + -1) /\
       (io_rate_sps (snapshot st') <= 2 ^ 31 ->
          existsb is_Alert_io (emitted st st') = false)).
Proof.
  apply (negative_threshold_as_unsigned build_fallback (host_hot 4750 0)
           (set_thresholds (-1) (-1) (-1) state_warm));
    vm_compute; split; (discriminate || reflexivity).
Defined.

Example scenario_negative_thresholds :
  let st := set_thresholds (-1) (-1) (-1) state_warm in
  match poll_metrics build_fallback (host_calm 1063 0) st with
  | Ok _ st' => filter is_alert (emitted st st') = [Alert_mem 200 (-1)]
  | Oops => False
  end.
Proof. vm_compute. reflexivity. Qed.

(** ** Re-arming the timer *)

(** C5, counterexample.  The module is initialised at jiffy 1000, so the
    first tick is due at jiffy 2250.  The callback runs then and reaches
    [mod_timer] two jiffies later: the next tick is armed for jiffy 3502,
    not for 2250 + 1250 = 3500. *)
Lemma next_tick_not_from_last_fire :
  match sys_health_init build_fallback true 1000 module_loaded with
  | Ok _ st =>
      poll_timer st = Some 2250 /\
      match poll_metrics build_fallback (rearm_after 2 (host_calm 1000 2250)) st with
      | Ok _ st' =>
          poll_timer st' = Some 3502 /\
          poll_timer st' <> Some (2250 + msecs_to_jiffies build_fallback 5000)
      | Oops => False
      end
  | Oops => False
  end.
Proof. vm_compute. repeat split; try reflexivity. discriminate. Qed.

(** C5, as amended.  At the end of every cycle the next tick is armed at
    the value of [jiffies] read at that moment plus [msecs_to_jiffies(5000)],
    in [unsigned long] arithmetic, whatever the expiry of the tick that
    started the cycle was. *)
Theorem next_tick_armed_from_now (k : kconfig) (h : host) (st : module_state) :
  exists st',
    poll_metrics k h st = Ok tt st' /\
    poll_timer st' = Some (ulong k (jiffies_rearm h + ulong k (msecs_to_jiffies k 5000))).
Proof.
  destruct (poll_metrics_run k h st) as (io & st' & E & _ & _ & _ & _ & _ & T).
  exists st'. split; assumption.
Qed.

(** The time a cycle takes is added to the period: when the tick was due at
    [f] and nothing wraps, the next one is due [msecs_to_jiffies(5000)]
    plus the delay of [mod_timer] after [f]. *)
Lemma rearm_delay_adds_to_period (k : kconfig) (h : host) (st : module_state) (f : Z) :
  poll_timer st = Some f ->
  0 <= msecs_to_jiffies k 5000 -> 0 <= jiffies_rearm h ->
  jiffies_rearm h + msecs_to_jiffies k 5000 < 2 ^ BITS_PER_LONG k ->
  exists st',
    poll_metrics k h st = Ok tt st' /\
    poll_timer st' = Some (f + msecs_to_jiffies k 5000 + (jiffies_rearm h - f)).
Proof.
  intros _ Hp Hj Hlt.
  destruct (poll_metrics_run k h st) as (io & st' & E & _ & _ & _ & _ & _ & T).
  exists st'. split; [exact E |]. rewrite T. f_equal.
  unfold ulong, wrap. rewrite (Z.mod_small (msecs_to_jiffies k 5000)) by lia.
  rewrite Z.mod_small by lia. lia.
Qed.

(** ** The snapshot store *)

(** C6. Before anything has been published, [proc_show] copies the zero
    snapshot (all fields zero) out of the store, writes its five lines and
    returns 0: so it is when the module is loaded and after
    [sys_health_init]; after [publish S] it copies out a value equal to [S]
    and writes the lines of [S]. *)
Theorem read_returns_zero_then_latest :
  (forall m,
      proc_show m module_loaded
      = Ok (zero_snapshot,
            (m ++ "Timestamp_ms : 0" ++ newline ++
                  "Memory_free  : 0" ++ nnbsp ++ "MiB" ++ newline ++
                  "Memory_total : 0" ++ nnbsp ++ "MiB" ++ newline ++
                  "CPU_load_1m  : 0" ++ nnbsp ++ "%" ++ newline ++
                  "Disk_io_rate : 0" ++ nbsp ++ "sectors/s" ++ newline)%string,
            0) module_loaded) /\
  (forall k created jiffies m,
      exists r st,
        sys_health_init k created jiffies module_loaded = Ok r st /\
        proc_show m st
        = Ok (zero_snapshot,
              (m ++ "Timestamp_ms : 0" ++ newline ++
                    "Memory_free  : 0" ++ nnbsp ++ "MiB" ++ newline ++
                    "Memory_total : 0" ++ nnbsp ++ "MiB" ++ newline ++
                    "CPU_load_1m  : 0" ++ nnbsp ++ "%" ++ newline ++
                    "Disk_io_rate : 0" ++ nbsp ++ "sectors/s" ++ newline)%string,
              0) st) /\
  (forall S st m,
      exists st',
        publish S st = Ok tt st' /\
        proc_show m st'
        = Ok (S,
              (m ++ "Timestamp_ms : " ++ decimal (ts_ms S) ++ newline ++
                    "Memory_free  : " ++ decimal (free_mem_mib S) ++ nnbsp ++ "MiB" ++ newline ++
                    "Memory_total : " ++ decimal (total_mem_mib S) ++ nnbsp ++ "MiB" ++ newline ++
                    "CPU_load_1m  : " ++ decimal (load_pct S) ++ nnbsp ++ "%" ++ newline ++
                    "Disk_io_rate : " ++ decimal (io_rate_sps S) ++ nbsp ++ "sectors/s"
                  ++ newline)%string,
              0) st').
Proof.
  split; [| split].
  - intros m. reflexivity.
  - intros k created jiffies m. destruct created.
    + eexists _, _. split; reflexivity.
    + eexists _, _. split; reflexivity.
  - intros S st m. eexists. split; reflexivity.
Qed.

(** The bytes a reader gets for the zero snapshot: the separators are the
    three bytes E2 80 AF before [MiB] and [%] and the two bytes C2 A0
    before [sectors/s]. *)
Example render_zero_snapshot :
  list_byte_of_string (render zero_snapshot) =
    list_byte_of_string "Timestamp_ms : 0" ++ [Byte.x0a] ++
    list_byte_of_string "Memory_free  : 0" ++ [Byte.xe2; Byte.x80; Byte.xaf] ++
    list_byte_of_string "MiB" ++ [Byte.x0a] ++
    list_byte_of_string "Memory_total : 0" ++ [Byte.xe2; Byte.x80; Byte.xaf] ++
    list_byte_of_string "MiB" ++ [Byte.x0a] ++
    list_byte_of_string "CPU_load_1m  : 0" ++ [Byte.xe2; Byte.x80; Byte.xaf] ++
    list_byte_of_string "%" ++ [Byte.x0a] ++
    list_byte_of_string "Disk_io_rate : 0" ++ [Byte.xc2; Byte.xa0] ++
    list_byte_of_string "sectors/s" ++ [Byte.x0a].
Proof. reflexivity. Qed.

(** After a cycle the reader gets the sample of that cycle. *)
Lemma read_after_cycle (k : kconfig) (h : host) (st : module_state) (m : string) :
  exists st',
    poll_metrics k h st = Ok tt st' /\
    proc_show m st' = Ok (snapshot st', (m ++ render (snapshot st'))%string, 0) st' /\
    free_mem_mib (snapshot st') = u32 (Z.shiftr (si_freeram h) 10) /\
    total_mem_mib (snapshot st') = u32 (Z.shiftr (si_totalram h) 10).
Proof.
  destruct (poll_metrics_run k h st) as (io & st' & E & _ & (_ & Ef & Et & _) & _).
  exists st'. repeat split; assumption || reflexivity.
Qed.

(** ** The fallback notice *)

Lemma count_lines_app (p : printk_line -> bool) (xs ys : list printk_line) :
  count_lines p (xs ++ ys) = (count_lines p xs + count_lines p ys)%nat.
Proof. unfold count_lines. rewrite filter_app, length_app. reflexivity. Qed.

Lemma cycle_alerts_no_notice (s : sys_snapshot) (st : module_state) :
  count_lines is_io_fallback (cycle_alerts s st) = 0%nat.
Proof.
  unfold cycle_alerts.
  destruct (free_mem_mib s <? _), (load_pct s >? _), (io_rate_sps s >? _); reflexivity.
Qed.

(** Once the flag is set, no number of cycles prints the notice again. *)
Lemma run_ticks_logged (k : kconfig) (hs : list host) :
  forall st,
    io_fallback_logged st = true ->
    exists st' ls,
      run_ticks k hs st = Ok tt st' /\
      dmesg st' = dmesg st ++ ls /\
      count_lines is_io_fallback ls = 0%nat /\
      io_fallback_logged st' = true.
Proof.
  induction hs as [| h hs IH]; intros st L.
  - exists st, []. cbn. rewrite app_nil_r. repeat split; assumption || reflexivity.
  - destruct (poll_metrics_run k h st) as (io & st1 & E & _ & _ & _ & L1 & D & _).
    assert (L1' : io_fallback_logged st1 = true).
    { rewrite L1, L. destruct (_ && _); reflexivity. }
    destruct (IH st1 L1') as (st' & ls & E' & D' & C' & L').
    exists st', ((fallback_lines k st ++ cycle_alerts (snapshot st1) st) ++ ls).
    split; [| split; [| split]].
    + cbn. unfold bind. rewrite E. exact E'.
    + rewrite D', D, <- !app_assoc. reflexivity.
    + rewrite !count_lines_app, C', cycle_alerts_no_notice.
      unfold fallback_lines. rewrite L, orb_true_r. reflexivity.
    + exact L'.
Qed.

(** C9. On a build that uses the fallback path, starting with the flag
    clear, the first tick prints the notice once and no later tick prints it:
    over the first tick and any number of further ticks the log gains the
    notice exactly once. *)
Theorem fallback_notice_printed_once
    (k : kconfig) (h : host) (hs : list host) (st : module_state) :
  HAVE_DISK_STATS k && HAVE_DISK_ITER k = false ->
  io_fallback_logged st = false ->
  exists st1 st',
    poll_metrics k h st = Ok tt st1 /\
    run_ticks k hs st1 = Ok tt st' /\
    run_ticks k (h :: hs) st = Ok tt st' /\
    count_lines is_io_fallback (emitted st st1) = 1%nat /\
    count_lines is_io_fallback (emitted st1 st') = 0%nat /\
    count_lines is_io_fallback (emitted st st') = 1%nat.
Proof.
  intros B L.
  destruct (poll_metrics_run k h st) as (io & st1 & E & _ & _ & _ & L1 & D & _).
  rewrite B in L1.
  destruct (run_ticks_logged k hs st1 L1) as (st' & ls & E' & D' & C' & _).
  assert (F : count_lines is_io_fallback
                (fallback_lines k st ++ cycle_alerts (snapshot st1) st) = 1%nat).
  { rewrite count_lines_app, cycle_alerts_no_notice.
    unfold fallback_lines. rewrite B, L. reflexivity. }
  exists st1, st'. repeat split.
  - exact E.
  - exact E'.
  - cbn. unfold bind. rewrite E. exact E'.
  - rewrite (emitted_app st st1 _ D). exact F.
  - rewrite (emitted_app st1 st' _ D'). exact C'.
  - rewrite D, <- app_assoc in D'. rewrite (emitted_app st st' _ D').
    rewrite count_lines_app, F, C'. reflexivity.
Qed.

Lemma fallback_notice_printed_once_witness :
  exists st1 st',
    poll_metrics build_fallback (host_calm 1000 2250) module_loaded = Ok tt st1 /\
    run_ticks build_fallback [host_hot 4750 3500; host_calm 4800 4750] st1 = Ok tt st' /\
    run_ticks build_fallback
      [host_calm 1000 2250; host_hot 4750 3500; host_calm 4800 4750] module_loaded
      = Ok tt st' /\
    count_lines is_io_fallback (emitted module_loaded st1) = 1%nat /\
    count_lines is_io_fallback (emitted st1 st') = 0%nat /\
    count_lines is_io_fallback (emitted module_loaded st') = 1%nat.
Proof.
  apply (fallback_notice_printed_once build_fallback (host_calm 1000 2250)
           [host_hot 4750 3500; host_calm 4800 4750] module_loaded);
    reflexivity.
Defined.

(** The log of those three ticks. *)
Example three_ticks_log :
  match run_ticks build_fallback
          [host_calm 1000 2250; host_hot 4750 3500; host_calm 4800 4750] module_loaded with
  | Ok _ st' =>
      dmesg st' = [Info_io_fallback; Alert_mem 90 100; Alert_cpu 85 80; Alert_io 6000 5000]
  | Oops => False
  end.
Proof. vm_compute. reflexivity. Qed.

(** On a build with the block-layer counters the notice is never printed. *)
Lemma preferred_path_no_notice (k : kconfig) (h : host) (st : module_state) :
  HAVE_DISK_STATS k && HAVE_DISK_ITER k = true ->
  exists st',
    poll_metrics k h st = Ok tt st' /\
    count_lines is_io_fallback (emitted st st') = 0%nat.
Proof.
  intros B.
  destruct (poll_metrics_run k h st) as (io & st' & E & _ & _ & _ & _ & D & _).
  exists st'. split; [exact E |].
  rewrite (emitted_app st st' _ D), count_lines_app, cycle_alerts_no_notice.
  unfold fallback_lines. rewrite B. reflexivity.
Qed.

(** ** Interleavings of the readers with the sampler *)

Module ConcurrentProofs.
Import Concurrent.

Lemma field_eq_dec (f g : field) : {f = g} + {f <> g}.
Proof. decide equality. Qed.

Lemma get_set_same (f : field) (v : Z) (s : sys_snapshot) :
  get_field f (set_field f v s) = v.
Proof. destruct f; reflexivity. Qed.

Lemma get_set_other (f g : field) (v : Z) (s : sys_snapshot) :
  f <> g -> get_field g (set_field f v s) = get_field g s.
Proof. intros N. destruct f, g; try reflexivity; contradiction. Qed.

(** Two snapshots that agree on every member are equal. *)
Lemma snapshot_ext (a b : sys_snapshot) :
  (forall f, get_field f a = get_field f b) -> a = b.
Proof.
  intros H. destruct a, b.
  pose proof (H F_ts_ms) as H1. pose proof (H F_free_mem_mib) as H2.
  pose proof (H F_total_mem_mib) as H3. pose proof (H F_load_pct) as H4.
  pose proof (H F_io_rate_sps) as H5. simpl in *. congruence.
Qed.

Lemma all_fields_complete (f : field) : In f all_fields.
Proof. destruct f; simpl; tauto. Qed.

Lemma copied_all (src dst : sys_snapshot) : copied all_fields src dst.
Proof. intros f N. destruct N. apply all_fields_complete. Qed.

Lemma copied_nil (src dst : sys_snapshot) : copied [] src dst -> dst = src.
Proof. intros C. apply snapshot_ext. intros f. apply C. intros []. Qed.

Lemma copied_step (f : field) (fs : list field) (src dst : sys_snapshot) :
  copied (f :: fs) src dst -> copied fs src (copy_field f src dst).
Proof.
  intros C g N. unfold copy_field.
  destruct (field_eq_dec f g) as [E | E].
  - subst g. apply get_set_same.
  - rewrite get_set_other by exact E. apply C. simpl. tauto.
Qed.

Lemma inv_boot (cycles : list sys_snapshot) (stack : nat -> sys_snapshot) :
  inv cycles (boot cycles stack).
Proof.
  constructor; simpl; try reflexivity; try discriminate; auto.
Qed.

Lemma inv_sampler_step (cycles : list sys_snapshot) (s : sys) :
  inv cycles s -> inv cycles (sampler_step s).
Proof.
  intros I. unfold sampler_step.
  destruct s as [lock sh [wpc wtodo wdone] rs].
  destruct I as [Ih Iu Isa Ira Ist Isc Irc Io].
  unfold latest in *. simpl in *.
  destruct wtodo as [| tmp rest]; [constructor; assumption |].
  destruct wpc as [| [| f fs] |].
  - destruct lock; [constructor; assumption |].
    destruct (Iu eq_refl) as [_ Ir].
    constructor; simpl; auto; try discriminate.
    intros fs E. injection E as <-. exists tmp, rest. split; [reflexivity | apply copied_all].
  - destruct (Isc [] eq_refl) as (tmp' & rest' & E & C).
    injection E as <- <-.
    constructor; simpl; auto; try discriminate.
    + rewrite <- Ih, <- app_assoc. reflexivity.
    + intros _. unfold latest. simpl. apply copied_nil, C.
    + intros i E. destruct (Io i E) as [Z0 | Z0]; auto.
  - destruct (Isc (f :: fs) eq_refl) as (tmp' & rest' & E & C).
    injection E as <- <-.
    constructor; simpl; auto; try discriminate.
    + intros fs' E. injection E as <-. exists tmp, rest.
      split; [reflexivity | apply copied_step, C].
    + intros i fs' E. specialize (Isa eq_refl i). rewrite E in Isa. discriminate.
  - constructor; assumption.
Qed.

Lemma set_reader_same (i : nat) (r : reader) (rs : nat -> reader) :
  set_reader i r rs i = r.
Proof. unfold set_reader. rewrite Nat.eqb_refl. reflexivity. Qed.

Lemma set_reader_other (i j : nat) (r : reader) (rs : nat -> reader) :
  j <> i -> set_reader i r rs j = rs j.
Proof.
  intros N. unfold set_reader. destruct (Nat.eqb_spec j i); [contradiction | reflexivity].
Qed.

Ltac split_reader i j :=
  destruct (Nat.eq_dec j i) as [-> | ?];
  [rewrite ?set_reader_same in * | rewrite ?set_reader_other in * by assumption].

Lemma inv_reader_step (cycles : list sys_snapshot) (i : nat) (s : sys) :
  inv cycles s -> inv cycles (reader_step i s).
Proof.
  intros I. unfold reader_step.
  destruct s as [lock sh w rs].
  destruct I as [Ih Iu Isa Ira Ist Isc Irc Io].
  unfold latest in *. simpl in *.
  destruct (rs i) as [p loc] eqn:Ri.
  simpl.
  destruct p as [| [| f fs] |].
  - (* spin_lock *)
    destruct lock; [constructor; assumption |].
    destruct (Iu eq_refl) as [Iw Ir].
    constructor; simpl; auto; try discriminate.
    + intros W. rewrite Iw in W. discriminate.
    + intros a b Ha Hb. split_reader i a; split_reader i b; try reflexivity;
        match goal with
        | H : in_cs (r_pc (rs ?x)) = true |- _ => rewrite (Ir x) in H; discriminate
        end.
    + intros a fs E. split_reader i a.
      * simpl in *. injection E as <-. apply copied_all.
      * apply Irc, E.
    + intros a E. split_reader i a.
      * simpl in E. discriminate.
      * apply Io, E.
  - (* spin_unlock *)
    assert (Wf : in_cs (w_pc w) = false).
    { destruct (in_cs (w_pc w)) eqn:W; [| reflexivity].
      specialize (Isa eq_refl i). rewrite Ri in Isa. discriminate. }
    constructor; simpl; auto; try discriminate.
    + intros _. split; [exact Wf |]. intros a. split_reader i a; [reflexivity |].
      destruct (in_cs (r_pc (rs a))) eqn:A; [| reflexivity].
      exfalso. apply n. apply (Ira a i); [exact A | rewrite Ri; reflexivity].
    + intros W. rewrite Wf in W. discriminate.
    + intros a b Ha Hb. split_reader i a; [simpl in Ha; discriminate |].
      split_reader i b; [simpl in Hb; discriminate |].
      apply (Ira a b Ha Hb).
    + intros a fs E. split_reader i a; [simpl in E; discriminate |].
      apply Irc, E.
    + intros a E. split_reader i a; [| apply Io, E].
      simpl. specialize (Irc i []). rewrite Ri in Irc. simpl in Irc.
      rewrite (copied_nil _ _ (Irc eq_refl)), (Ist Wf).
      destruct (w_done w); simpl; auto.
  - (* one member of s = snapshot *)
    constructor; simpl; auto; try discriminate.
    + intros L. destruct (Iu L) as [_ Ir]. specialize (Ir i).
      rewrite Ri in Ir. discriminate.
    + intros W a. specialize (Isa W i). rewrite Ri in Isa. discriminate.
    + intros a b Ha Hb. apply (Ira a b).
      * split_reader i a; [rewrite Ri; reflexivity | exact Ha].
      * split_reader i b; [rewrite Ri; reflexivity | exact Hb].
    + intros a fs' E. split_reader i a; [| apply Irc, E].
      simpl in *. injection E as <-. apply copied_step.
      specialize (Irc i (f :: fs)). rewrite Ri in Irc. apply Irc. reflexivity.
    + intros a E. split_reader i a; [simpl in E; discriminate | apply Io, E].
  - constructor; assumption.
Qed.

Lemma inv_step (cycles : list sys_snapshot) (t : tid) (s : sys) :
  inv cycles s -> inv cycles (step t s).
Proof.
  destruct t as [| i]; [apply inv_sampler_step | apply inv_reader_step].
Qed.

Lemma inv_run (cycles : list sys_snapshot) (sched : list tid) :
  forall s, inv cycles s -> inv cycles (run sched s).
Proof.
  induction sched as [| t sched IH]; intros s I; simpl.
  - exact I.
  - apply IH, inv_step, I.
Qed.

Lemma published_among_cycles (cycles : list sys_snapshot) (s : sys) (v : sys_snapshot) :
  inv cycles s -> In v (zero_snapshot :: w_done (sampler s)) ->
  In v (zero_snapshot :: cycles).
Proof.
  intros I [E | H]; [left; exact E | right].
  rewrite <- (inv_history _ _ I). apply in_or_app. left. apply in_rev in H. exact H.
Qed.

Lemma latest_published (s : sys) : In (latest s) (zero_snapshot :: w_done (sampler s)).
Proof. unfold latest. destruct (w_done (sampler s)); simpl; auto. Qed.

(** On a build with CONFIG_SMP, in every interleaving of any number of
    readers with the publishes of the sampler, a reader that has left its
    critical section holds the zero snapshot or the whole value of one
    publish, never a mix of members of two; while a reader is inside its
    critical section the sampler is outside and the store holds the whole
    value of the latest completed publish; and whenever the sampler is
    outside its critical section the store holds that value. *)
Theorem readers_observe_whole_publishes
    (cycles : list sys_snapshot) (stack : nat -> sys_snapshot) (sched : list tid) :
  (forall i v,
      observed (run sched (boot cycles stack)) i = Some v ->
      In v (zero_snapshot :: w_done (sampler (run sched (boot cycles stack)))) /\
      In v (zero_snapshot :: cycles)) /\
  (forall i,
      in_cs (r_pc (readers (run sched (boot cycles stack)) i)) = true ->
      in_cs (w_pc (sampler (run sched (boot cycles stack)))) = false /\
      shared (run sched (boot cycles stack)) = latest (run sched (boot cycles stack))) /\
  (in_cs (w_pc (sampler (run sched (boot cycles stack)))) = false ->
   shared (run sched (boot cycles stack)) = latest (run sched (boot cycles stack)) /\
   In (shared (run sched (boot cycles stack))) (zero_snapshot :: cycles)).
Proof.
  pose proof (inv_run cycles sched _ (inv_boot cycles stack)) as I.
  set (s := run sched (boot cycles stack)) in *.
  split; [| split].
  - intros i v O. unfold observed in O.
    destruct (r_pc (readers s i)) eqn:P; try discriminate.
    injection O as <-.
    pose proof (inv_observed _ _ I i P) as H.
    split; [exact H | apply (published_among_cycles cycles s _ I H)].
  - intros i R.
    assert (W : in_cs (w_pc (sampler s)) = false).
    { destruct (in_cs (w_pc (sampler s))) eqn:W; [| reflexivity].
      rewrite (inv_sampler_alone _ _ I W i) in R. discriminate. }
    split; [exact W | apply (inv_stable _ _ I W)].
  - intros W. pose proof (inv_stable _ _ I W) as E. split; [exact E |].
    rewrite E. apply (published_among_cycles cycles s _ I), latest_published.
Qed.

Lemma readers_observe_whole_publishes_witness :
  observed (run schedule_mixed (boot [sample_a; sample_b] stale_stack)) 0 = Some sample_b /\
  observed (run schedule_mixed (boot [sample_a; sample_b] stale_stack)) 1 = Some sample_a /\
  In sample_b (zero_snapshot :: [sample_a; sample_b]) /\
  In sample_a (zero_snapshot :: [sample_a; sample_b]).
Proof.
  split; [reflexivity |]. split; [reflexivity |].
  destruct (readers_observe_whole_publishes [sample_a; sample_b] stale_stack schedule_mixed)
    as [H _].
  split.
  - apply (H 0%nat sample_b). reflexivity.
  - apply (H 1%nat sample_a). reflexivity.
Defined.

(** Outside the lock the assignment is not atomic: while the sampler is
    in the middle of [snapshot = tmp] the store holds a value that no
    cycle produced.  The lock is what keeps readers from seeing it. *)
Example store_torn_inside_critical_section :
  shared (run [Sampler; Sampler; Sampler] (boot [sample_a; sample_b] stale_stack))
    = {| ts_ms := 9000; free_mem_mib := 200; total_mem_mib := 0;
         load_pct := 0; io_rate_sps := 0 |} /\
  ~ In (shared (run [Sampler; Sampler; Sampler] (boot [sample_a; sample_b] stale_stack)))
       (zero_snapshot :: [sample_a; sample_b]).
Proof.
  split; [reflexivity |].
  vm_compute. intros [H | [H | [H | []]]]; discriminate.
Qed.

(** A reader that asks for the lock while the sampler holds it makes no
    progress: its step leaves the state as it is. *)
Lemma reader_spins_while_locked (s : sys) (i : nat) :
  snap_lock s = true -> r_pc (readers s i) = Before -> reader_step i s = s.
Proof.
  intros L P. unfold reader_step. rewrite P, L. reflexivity.
Qed.

End ConcurrentProofs.

(** ** The timer callback on a build without CONFIG_SMP *)

Lemma assign_all (src dst : sys_snapshot) : Uniprocessor.assign src dst = src.
Proof. destruct src, dst. reflexivity. Qed.

(** Whatever the first sample is: the reader that is preempted by the timer
    after two members returns the first two members of the old value of the
    store and the last three of the new one, and the callback has published
    the sample in full. *)
Lemma preempted_reader_mixes (tmp : sys_snapshot) (rest : list sys_snapshot)
    (stack : nat -> sys_snapshot) :
  Concurrent.observed
    (run_on false Uniprocessor.schedule_preempted (Concurrent.boot (tmp :: rest) stack)) 0
  = Some {| ts_ms := 0; free_mem_mib := 0; total_mem_mib := total_mem_mib tmp;
            load_pct := load_pct tmp; io_rate_sps := io_rate_sps tmp |} /\
  Concurrent.shared
    (run_on false Uniprocessor.schedule_preempted (Concurrent.boot (tmp :: rest) stack))
  = tmp /\
  Concurrent.w_done (Concurrent.sampler
    (run_on false Uniprocessor.schedule_preempted (Concurrent.boot (tmp :: rest) stack)))
  = [tmp].
Proof. destruct tmp. repeat split. Qed.

(** C1. The code does not keep readers from partial snapshots on a build
    without CONFIG_SMP.  The store holds the zero snapshot; a call of
    [proc_show] takes [spin_lock], which there only disables preemption,
    and copies [ts_ms] and [free_mem_mib]; the timer fires and
    [poll_metrics] publishes its sample on the same CPU; [proc_show] copies
    the other three members and returns a snapshot that is neither the zero
    snapshot nor the published one: its first two members are of the one,
    its last three of the other. *)
Theorem reader_sees_torn_snapshot :
  Concurrent.observed
    (run_on false Uniprocessor.schedule_preempted
       (Concurrent.boot [Concurrent.sample_a] Concurrent.stale_stack)) 0
  = Some {| ts_ms := 0; free_mem_mib := 0; total_mem_mib := 16384;
            load_pct := 50; io_rate_sps := 0 |} /\
  Concurrent.w_done (Concurrent.sampler
    (run_on false Uniprocessor.schedule_preempted
       (Concurrent.boot [Concurrent.sample_a] Concurrent.stale_stack)))
  = [Concurrent.sample_a] /\
  ~ In {| ts_ms := 0; free_mem_mib := 0; total_mem_mib := 16384;
          load_pct := 50; io_rate_sps := 0 |}
       (zero_snapshot :: [Concurrent.sample_a]).
Proof.
  split; [reflexivity |]. split; [reflexivity |].
  intros [H | [H | []]]; discriminate.
Qed.

(** The same schedule on a build with CONFIG_SMP: the callback spins, and
    the reader returns the zero snapshot, whole. *)
Example preempted_reader_whole_with_smp :
  Concurrent.observed
    (run_on true Uniprocessor.schedule_preempted
       (Concurrent.boot [Concurrent.sample_a] Concurrent.stale_stack)) 0
  = Some zero_snapshot.
Proof. reflexivity. Qed.

(** * Further properties of the module *)

(** ** The cumulative I/O counter *)

Lemma sum_disk_sectors_from (k : kconfig) (ds : list (Z * Z)) (acc : Z) :
  fold_left (fun io_total d => u64 (io_total + ulong k (fst d + snd d))) ds (u64 acc)
    = u64 (acc + sum_Z (map (fun d => ulong k (fst d + snd d)) ds)).
Proof.
  revert acc. induction ds as [| d ds IH]; intros acc; simpl.
  - rewrite Z.add_0_r. reflexivity.
  - replace (u64 (u64 acc + ulong k (fst d + snd d)))
      with (u64 (acc + ulong k (fst d + snd d))).
    + rewrite IH. f_equal. lia.
    + unfold u64, wrap. rewrite Zplus_mod_idemp_l. reflexivity.
Qed.

Lemma sum_disk_sectors_closed (k : kconfig) (ds : list (Z * Z)) :
  sum_disk_sectors k ds = u64 (sum_Z (map (fun d => ulong k (fst d + snd d)) ds)).
Proof.
  unfold sum_disk_sectors.
  change 0 with (u64 0) at 1. rewrite sum_disk_sectors_from. reflexivity.
Qed.

Lemma sum_Z_perm (xs ys : list Z) : Permutation xs ys -> sum_Z xs = sum_Z ys.
Proof.
  induction 1; simpl; lia.
Qed.

(** X1. The block-layer total does not depend on the order in which the
    disks are enumerated, wrap-around included. *)
Theorem disk_total_order_free (k : kconfig) (ds ds' : list (Z * Z)) :
  Permutation ds ds' -> sum_disk_sectors k ds = sum_disk_sectors k ds'.
Proof.
  intros P. rewrite !sum_disk_sectors_closed. f_equal.
  apply sum_Z_perm, Permutation_map, P.
Qed.

Lemma disk_total_order_free_witness :
  sum_disk_sectors build_blk [(100, 20); (7, 2 ^ 64 - 1); (3, 4)]
    = sum_disk_sectors build_blk [(3, 4); (100, 20); (7, 2 ^ 64 - 1)].
Proof.
  apply (disk_total_order_free build_blk).
  apply Permutation_sym.
  apply (Permutation_cons_app [(100, 20); (7, 2 ^ 64 - 1)] [] (3, 4)).
  rewrite app_nil_r. apply Permutation_refl.
Defined.

Lemma sum_Z_exact (k : kconfig) (ds : list (Z * Z)) :
  Forall (fun d => 0 <= fst d /\ 0 <= snd d /\ fst d + snd d < 2 ^ BITS_PER_LONG k) ds ->
  sum_Z (map (fun d => ulong k (fst d + snd d)) ds) = sum_Z (map (fun d => fst d + snd d) ds)
  /\ 0 <= sum_Z (map (fun d => fst d + snd d) ds).
Proof.
  induction 1 as [| d ds (Hr & Hw & Hs) _ (IH & IH0)]; simpl.
  - split; [reflexivity | lia].
  - unfold ulong, wrap at 1. rewrite Z.mod_small by lia.
    fold (ulong k). split; [f_equal; exact IH | lia].
Qed.

(** X2. On a build with the block-layer counters, when no addition
    overflows, [read_io_total] returns the sum of the read and write sector
    counts of all disks and leaves the module state as it is: neither the
    fallback flag nor the log is touched. *)
Theorem preferred_total_is_sum (k : kconfig) (h : host) (st : module_state) :
  HAVE_DISK_STATS k && HAVE_DISK_ITER k = true ->
  Forall (fun d => 0 <= fst d /\ 0 <= snd d /\ fst d + snd d < 2 ^ BITS_PER_LONG k)
         (disks h) ->
  sum_Z (map (fun d => fst d + snd d) (disks h)) < 2 ^ 64 ->
  read_io_total k h st = Ok (sum_Z (map (fun d => fst d + snd d) (disks h))) st.
Proof.
  intros B F Hlt. unfold read_io_total. rewrite B. unfold ret.
  rewrite sum_disk_sectors_closed.
  destruct (sum_Z_exact k (disks h) F) as [E E0]. rewrite E.
  rewrite u64_id by (unfold is_u64; lia). reflexivity.
Qed.

Lemma preferred_total_is_sum_witness :
  read_io_total build_blk
    {| si_totalram := 0; si_freeram := 0; avenrun_1 := 0; num_online_cpus := 1;
       disks := [(1000, 200); (30, 4)]; ev_PGPGIN := 77; ev_PGPGOUT := 88;
       jiffies_stamp := 0; jiffies_rearm := 0 |} module_loaded
  = Ok (sum_Z (map (fun d => fst d + snd d) [(1000, 200); (30, 4)])) module_loaded.
Proof.
  apply (preferred_total_is_sum build_blk
           {| si_totalram := 0; si_freeram := 0; avenrun_1 := 0; num_online_cpus := 1;
              disks := [(1000, 200); (30, 4)]; ev_PGPGIN := 77; ev_PGPGOUT := 88;
              jiffies_stamp := 0; jiffies_rearm := 0 |} module_loaded).
  - reflexivity.
  - repeat constructor; simpl; lia.
  - vm_compute. reflexivity.
Defined.

(** X3. On a fallback build, when nothing overflows, [read_io_total]
    returns the page-in plus page-out events times the number of 512-byte
    sectors in a page; the baseline, the snapshot, the timer and the
    parameters are left alone. *)
Theorem fallback_total_is_pages_times_sectors (k : kconfig) (h : host) (st : module_state) :
  HAVE_DISK_STATS k && HAVE_DISK_ITER k = false ->
  0 <= ev_PGPGIN h -> 0 <= ev_PGPGOUT h -> 0 <= PAGE_SIZE k ->
  (ev_PGPGIN h + ev_PGPGOUT h) * (PAGE_SIZE k / 512) < 2 ^ 64 ->
  ev_PGPGIN h + ev_PGPGOUT h < 2 ^ 64 ->
  exists st',
    read_io_total k h st = Ok ((ev_PGPGIN h + ev_PGPGOUT h) * (PAGE_SIZE k / 512)) st' /\
    last_io_ticks st' = last_io_ticks st /\
    snapshot st' = snapshot st /\
    poll_timer st' = poll_timer st /\
    (mem_threshold st', cpu_threshold st', io_threshold st')
      = (mem_threshold st, cpu_threshold st, io_threshold st).
Proof.
  intros B Hi Ho Hp Hlt Hs. unfold read_io_total. rewrite B.
  assert (E : u64 (u64 (u64 (ev_PGPGIN h) + u64 (ev_PGPGOUT h)) * Z.shiftr (PAGE_SIZE k) 9)
              = (ev_PGPGIN h + ev_PGPGOUT h) * (PAGE_SIZE k / 512)).
  { rewrite Z.shiftr_div_pow2 by lia. change (2 ^ 9) with 512.
    assert (0 <= PAGE_SIZE k / 512) by (apply Z.div_pos; lia).
    rewrite (u64_id (ev_PGPGIN h)) by (unfold is_u64; lia).
    rewrite (u64_id (ev_PGPGOUT h)) by (unfold is_u64; lia).
    rewrite (u64_id (ev_PGPGIN h + ev_PGPGOUT h)) by (unfold is_u64; lia).
    apply u64_id. unfold is_u64. split; [apply Z.mul_nonneg_nonneg; lia | exact Hlt]. }
  unfold bind, gets, when, printk, modify, ret.
  destruct (io_fallback_logged st); simpl; rewrite E;
    (eexists; split; [reflexivity |]); repeat split.
Qed.

Lemma fallback_total_is_pages_times_sectors_witness :
  exists st',
    read_io_total build_fallback (host_calm 1000 0) module_loaded
      = Ok ((1000 + 0) * (4096 / 512)) st' /\
    last_io_ticks st' = last_io_ticks module_loaded /\
    snapshot st' = snapshot module_loaded /\
    poll_timer st' = poll_timer module_loaded /\
    (mem_threshold st', cpu_threshold st', io_threshold st')
      = (mem_threshold module_loaded, cpu_threshold module_loaded,
         io_threshold module_loaded).
Proof.
  apply (fallback_total_is_pages_times_sectors build_fallback (host_calm 1000 0)
           module_loaded); vm_compute; (reflexivity || discriminate).
Defined.

(** ** The load percentage *)

(** X4. The load is a percentage of the capacity of all online cores: a
    1-minute load average of exactly [n] on [c] cores gives [100 * n / c],
    so a load average equal to the number of cores reads 100. *)
Theorem load_percent_of_capacity (k : kconfig) (h : host) (st : module_state) (n c : Z) :
  0 <= FSHIFT k -> 0 <= n ->
  avenrun_1 h = n * 2 ^ FSHIFT k -> n * 2 ^ FSHIFT k * 100 < 2 ^ 64 ->
  num_online_cpus h = c -> 1 <= c < 2 ^ 32 -> 100 * n / c < 2 ^ 32 ->
  collect_load_percent k h st = Ok (100 * n / c) st /\
  (n = c -> collect_load_percent k h st = Ok 100 st).
Proof.
  intros HF Hn Ha Hlt Hc Hcr Hq.
  assert (P : 0 < 2 ^ FSHIFT k) by (apply Z.pow_pos_nonneg; lia).
  assert (R : collect_load_percent k h st = Ok (100 * n / c) st).
  { rewrite collect_load_percent_run. f_equal.
    unfold online_cores. rewrite Hc, (u32_id c) by (unfold is_u32; lia).
    change (u32 1) with 1. rewrite Z.max_l by lia.
    rewrite Ha. rewrite (u64_id (n * 2 ^ FSHIFT k * 100)) by (unfold is_u64; nia).
    rewrite Z.shiftr_div_pow2 by lia.
    replace (n * 2 ^ FSHIFT k * 100) with (100 * n * 2 ^ FSHIFT k) by lia.
    rewrite Z.div_mul by lia.
    rewrite (u64_id (100 * n)) by (unfold is_u64; nia).
    apply u32_id. unfold is_u32. split; [apply Z.div_pos; lia | exact Hq]. }
  split; [exact R |].
  intros ->. rewrite R. f_equal. apply Z.div_mul. lia.
Qed.

Lemma load_percent_of_capacity_witness :
  let h := {| si_totalram := 0; si_freeram := 0; avenrun_1 := 4 * 2048;
              num_online_cpus := 4; disks := []; ev_PGPGIN := 0; ev_PGPGOUT := 0;
              jiffies_stamp := 0; jiffies_rearm := 0 |} in
  collect_load_percent build_fallback h module_loaded = Ok (100 * 4 / 4) module_loaded /\
  (4 = 4 -> collect_load_percent build_fallback h module_loaded = Ok 100 module_loaded).
Proof.
  apply (load_percent_of_capacity build_fallback
           {| si_totalram := 0; si_freeram := 0; avenrun_1 := 4 * 2048;
              num_online_cpus := 4; disks := []; ev_PGPGIN := 0; ev_PGPGOUT := 0;
              jiffies_stamp := 0; jiffies_rearm := 0 |} module_loaded 4 4);
    vm_compute; try split; (reflexivity || discriminate).
Defined.

(** ** The rate over several ticks *)

Lemma last_cons_any (l : list Z) (x d d' : Z) : last (x :: l) d = last (x :: l) d'.
Proof.
  revert x. induction l as [| y l IH]; intros x; [reflexivity |].
  change (last (y :: l) d = last (y :: l) d'). apply IH.
Qed.

Lemma last_cons_shift (l : list Z) (x d : Z) : last (x :: l) d = last l x.
Proof.
  destruct l as [| y l]; [reflexivity |].
  change (last (y :: l) d = last (y :: l) x). apply last_cons_any.
Qed.

Lemma sample_counters_steady (cs : list Z) :
  forall st,
    0 < last_io_ticks st -> steady_counters (last_io_ticks st) cs ->
    exists rs st',
      sample_counters cs st = Ok rs st' /\
      List.length rs = List.length cs /\
      last_io_ticks st' = last cs (last_io_ticks st) /\
      5 * sum_Z rs <= last_io_ticks st' - last_io_ticks st /\
      last_io_ticks st' - last_io_ticks st <= 5 * sum_Z rs + 4 * Z.of_nat (List.length cs).
Proof.
  induction cs as [| c cs IH]; intros st Hp Hs.
  - exists [], st. cbn. repeat split; lia.
  - destruct Hs as (Hle & Hc & Hq & Hs).
    assert (Hd : u32 (u64 (c - last_io_ticks st) / 5) = (c - last_io_ticks st) / 5).
    { rewrite (u64_id (c - last_io_ticks st)) by (unfold is_u64; lia).
      apply u32_id. unfold is_u32. split; [apply Z.div_pos; lia | exact Hq]. }
    destruct (IH (set_last_io_ticks c st)) as (rs & st' & E & Hl & Hlast & Hlo & Hhi).
    { cbn [last_io_ticks set_last_io_ticks]. lia. }
    { cbn [last_io_ticks set_last_io_ticks]. exact Hs. }
    cbn [last_io_ticks set_last_io_ticks] in Hlast, Hlo, Hhi.
    exists ((c - last_io_ticks st) / 5 :: rs), st'.
    assert (Hm := Z.mod_pos_bound (c - last_io_ticks st) 5 ltac:(lia)).
    assert (Hdm := Z.div_mod (c - last_io_ticks st) 5 ltac:(lia)).
    change (sum_Z ((c - last_io_ticks st) / 5 :: rs))
      with ((c - last_io_ticks st) / 5 + sum_Z rs).
    change (List.length (c :: cs)) with (S (List.length cs)).
    change (List.length ((c - last_io_ticks st) / 5 :: rs)) with (S (List.length rs)).
    rewrite last_cons_shift.
    split; [| split; [| split; [| split]]].
    + cbn [sample_counters]. unfold bind at 1.
      rewrite io_delta_rate_next by lia. rewrite Hd.
      unfold bind at 1. rewrite E. reflexivity.
    + rewrite Hl. reflexivity.
    + exact Hlast.
    + lia.
    + lia.
Qed.

(** X5. With a baseline in place and a counter that never decreases, the
    rates of any number of consecutive ticks, each times the 5 seconds of
    its window, never add up to more than the growth of the counter, and
    fall short of it by at most 4 sectors per tick (the remainder of each
    division is dropped, because the baseline moves to the new counter). *)
Theorem rates_account_for_growth (cs : list Z) (st : module_state) :
  0 < last_io_ticks st -> steady_counters (last_io_ticks st) cs ->
  exists rs st',
    sample_counters cs st = Ok rs st' /\
    List.length rs = List.length cs /\
    last_io_ticks st' = last cs (last_io_ticks st) /\
    5 * sum_Z rs <= last_io_ticks st' - last_io_ticks st /\
    last_io_ticks st' - last_io_ticks st <= 5 * sum_Z rs + 4 * Z.of_nat (List.length cs).
Proof.
  intros Hp Hs.
  destruct (sample_counters_steady cs st Hp Hs) as (rs & st' & E & Hl & H1 & H2 & H3).
  exists rs, st'. repeat split; assumption.
Qed.

Lemma rates_account_for_growth_witness :
  exists rs st',
    sample_counters [8012; 8012; 38016] state_warm = Ok rs st' /\
    List.length rs = List.length [8012; 8012; 38016] /\
    last_io_ticks st' = last [8012; 8012; 38016] (last_io_ticks state_warm) /\
    5 * sum_Z rs <= last_io_ticks st' - last_io_ticks state_warm /\
    last_io_ticks st' - last_io_ticks state_warm
      <= 5 * sum_Z rs + 4 * Z.of_nat (List.length [8012; 8012; 38016]).
Proof.
  apply (rates_account_for_growth [8012; 8012; 38016] state_warm).
  - vm_compute. reflexivity.
  - vm_compute. repeat split; discriminate.
Defined.

(** X6. A sample whose counter is 0 puts the estimator back where it
    started: whatever the baseline was, the call after it returns rate 0
    for every counter and takes that counter as the new baseline. *)
Theorem zero_sample_forgets_baseline (c : Z) (st : module_state) :
  exists r st1,
    io_delta_rate 0 st = Ok r st1 /\
    last_io_ticks st1 = 0 /\
    io_delta_rate c st1 = Ok 0 (set_last_io_ticks c st1).
Proof.
  exists (if last_io_ticks st =? 0 then 0 else u32 (u64 (0 - last_io_ticks st) / 5)),
         (set_last_io_ticks 0 st).
  split; [apply io_delta_rate_run |]. split; [reflexivity |].
  apply io_delta_rate_first. reflexivity.
Qed.

(** ** What a cycle leaves behind *)

(** X7. Every published snapshot fits 32 bits in all its fields, the
    64-bit time stamp included (it is the [unsigned int] result of
    [jiffies_to_msecs]), and the baseline stays a [u64], whatever values
    the kernel reports. *)
Theorem published_fields_in_range (k : kconfig) (h : host) (st : module_state) :
  exists st',
    poll_metrics k h st = Ok tt st' /\
    is_u32 (ts_ms (snapshot st')) /\
    is_u32 (free_mem_mib (snapshot st')) /\
    is_u32 (total_mem_mib (snapshot st')) /\
    is_u32 (load_pct (snapshot st')) /\
    is_u32 (io_rate_sps (snapshot st')) /\
    is_u64 (last_io_ticks st').
Proof.
  destruct (poll_metrics_run k h st)
    as (io & st' & E & _ & (Ets & Ef & Et & El & Eio) & (Rio & Elast) & _).
  exists st'. rewrite Ets, Ef, Et, El, Eio, Elast.
  split; [exact E |].
  repeat (split; [apply u32_range |]).
  split; [| exact Rio].
  destruct (last_io_ticks st =? 0); [unfold is_u32; lia | apply u32_range].
Qed.

Lemma is_cycle_line_alerts (s : sys_snapshot) (st : module_state) :
  Forall (fun l => is_cycle_line l = true) (cycle_alerts s st).
Proof.
  unfold cycle_alerts.
  destruct (free_mem_mib s <? _), (load_pct s >? _), (io_rate_sps s >? _);
    repeat constructor.
Qed.

Lemma is_cycle_line_fallback (k : kconfig) (st : module_state) :
  Forall (fun l => is_cycle_line l = true) (fallback_lines k st).
Proof.
  unfold fallback_lines. destruct (_ || _); repeat constructor.
Qed.

Lemma run_ticks_run (k : kconfig) (hs : list host) :
  forall st,
    exists st' ls,
      run_ticks k hs st = Ok tt st' /\
      (mem_threshold st' = mem_threshold st /\
       cpu_threshold st' = cpu_threshold st /\
       io_threshold st' = io_threshold st) /\
      proc_entry st' = proc_entry st /\
      dmesg st' = dmesg st ++ ls /\
      Forall (fun l => is_cycle_line l = true) ls /\
      (poll_timer st <> None -> poll_timer st' <> None) /\
      (hs <> [] -> poll_timer st' <> None).
Proof.
  induction hs as [| h hs IH]; intros st.
  - exists st, []. cbn. rewrite app_nil_r.
    repeat split; try constructor; try (intros N; exact N).
    intros N _. apply N. reflexivity.
  - destruct (poll_metrics_run k h st)
      as (io & st1 & E & (Tm & Tc & Ti & Pe) & _ & _ & _ & D & T).
    destruct (IH st1) as (st' & ls & E' & (Tm' & Tc' & Ti') & Pe' & D' & F' & T' & _).
    assert (T1 : poll_timer st1 <> None) by (rewrite T; discriminate).
    exists st', ((fallback_lines k st ++ cycle_alerts (snapshot st1) st) ++ ls).
    repeat split; try congruence.
    + cbn. unfold bind. rewrite E. exact E'.
    + rewrite D', D, <- !app_assoc. reflexivity.
    + apply Forall_app. split; [apply Forall_app; split |].
      * apply is_cycle_line_fallback.
      * apply is_cycle_line_alerts.
      * exact F'.
    + intros _. apply T', T1.
    + intros _. apply T', T1.
Qed.

(** X8. No sequence of ticks traps, and the sampler never writes to its
    own parameters or to the /proc registration: after any number of cycles
    the three thresholds are what they were, the log has only grown, and
    what was added are fallback notices and alerts. *)
Theorem ticks_never_trap_nor_touch_parameters
    (k : kconfig) (hs : list host) (st : module_state) :
  exists st' ls,
    run_ticks k hs st = Ok tt st' /\
    mem_threshold st' = mem_threshold st /\
    cpu_threshold st' = cpu_threshold st /\
    io_threshold st' = io_threshold st /\
    proc_entry st' = proc_entry st /\
    dmesg st' = dmesg st ++ ls /\
    Forall (fun l => is_cycle_line l = true) ls.
Proof.
  destruct (run_ticks_run k hs st) as (st' & ls & E & (Tm & Tc & Ti) & Pe & D & F & _).
  exists st', ls. repeat split; assumption.
Qed.

(** X9. Alerts are neither remembered nor rate-limited: over any number
    of ticks that each measure less free memory than the floor, the memory
    alert is printed once per tick. *)
Theorem memory_alert_every_tick (k : kconfig) (hs : list host) :
  forall st,
    Forall (fun h => u32 (Z.shiftr (si_freeram h) 10) < u32 (mem_threshold st)) hs ->
    exists st',
      run_ticks k hs st = Ok tt st' /\
      count_lines is_Alert_mem (emitted st st') = List.length hs.
Proof.
  assert (G : forall st,
             Forall (fun h => u32 (Z.shiftr (si_freeram h) 10) < u32 (mem_threshold st)) hs ->
             exists st' ls,
               run_ticks k hs st = Ok tt st' /\ dmesg st' = dmesg st ++ ls /\
               count_lines is_Alert_mem ls = List.length hs).
  { induction hs as [| h hs IH]; intros st F.
    - exists st, []. cbn. rewrite app_nil_r. repeat split.
    - inversion F as [| h' hs' Hh Hrest]; subst.
      destruct (poll_metrics_run k h st)
        as (io & st1 & E & (Tm & _) & (_ & Ef & _) & _ & _ & D & _).
      rewrite <- Tm in Hrest.
      destruct (IH st1 Hrest) as (st' & ls & E' & D' & C').
      exists st', ((fallback_lines k st ++ cycle_alerts (snapshot st1) st) ++ ls).
      split; [| split].
      + cbn. unfold bind. rewrite E. exact E'.
      + rewrite D', D, <- !app_assoc. reflexivity.
      + rewrite count_lines_app, C'.
        assert (C1 : count_lines is_Alert_mem
                       (fallback_lines k st ++ cycle_alerts (snapshot st1) st) = 1%nat).
        { unfold count_lines, fallback_lines, cycle_alerts. rewrite Ef.
          apply Z.ltb_lt in Hh. rewrite Hh.
          destruct (_ || _), (load_pct (snapshot st1) >? _),
            (io_rate_sps (snapshot st1) >? _); reflexivity. }
        rewrite C1. reflexivity. }
  intros st F. destruct (G st F) as (st' & ls & E & D & C).
  exists st'. split; [exact E |]. rewrite (emitted_app st st' ls D). exact C.
Qed.

Lemma memory_alert_every_tick_witness :
  exists st',
    run_ticks build_fallback [host_hot 1000 0; host_hot 1000 0; host_hot 1000 0] state_warm
      = Ok tt st' /\
    count_lines is_Alert_mem (emitted state_warm st')
      = List.length [host_hot 1000 0; host_hot 1000 0; host_hot 1000 0].
Proof.
  apply (memory_alert_every_tick build_fallback
           [host_hot 1000 0; host_hot 1000 0; host_hot 1000 0] state_warm).
  repeat constructor.
Defined.

(** X10. In terms of what [si_meminfo] reports: with a floor that is not
    negative and less than 2^42 free pages, the memory alert is printed
    exactly when the free pages are fewer than 1024 times the floor. *)
Theorem memory_alert_in_pages (k : kconfig) (h : host) (st : module_state) :
  0 <= si_freeram h < 2 ^ 42 ->
  is_int (mem_threshold st) -> 0 <= mem_threshold st ->
  exists st',
    poll_metrics k h st = Ok tt st' /\
    (existsb is_Alert_mem (emitted st st') = true
       <-> si_freeram h < 1024 * mem_threshold st).
Proof.
  intros Hf Hi H0.
  destruct (poll_metrics_run k h st) as (io & st' & E & _ & (_ & Ef & _) & _ & _ & D & _).
  exists st'. split; [exact E |].
  rewrite (emitted_app st st' _ D), cycle_has_mem_alert, Ef.
  rewrite (u32_of_nonneg_int (mem_threshold st)) by assumption.
  rewrite Z.shiftr_div_pow2 by lia. change (2 ^ 10) with 1024.
  assert (Q : 0 <= si_freeram h / 1024 < 2 ^ 32).
  { split; [apply Z.div_pos; lia | apply Z.div_lt_upper_bound; lia]. }
  rewrite u32_id by exact Q.
  rewrite Z.ltb_lt. split; intros H.
  - apply Z.nle_gt. intros N. apply (Z.div_le_lower_bound _ 1024) in N; lia.
  - apply Z.div_lt_upper_bound; lia.
Qed.

Lemma memory_alert_in_pages_witness :
  exists st',
    poll_metrics build_fallback (host_hot 1000 0) state_warm = Ok tt st' /\
    (existsb is_Alert_mem (emitted state_warm st') = true
       <-> si_freeram (host_hot 1000 0) < 1024 * mem_threshold state_warm).
Proof.
  apply (memory_alert_in_pages build_fallback (host_hot 1000 0) state_warm);
    vm_compute; try split; (reflexivity || discriminate).
Defined.

(** X11. On a build with the block-layer counters the fallback notice is
    never printed and the flag is never set, over any number of ticks. *)
Theorem preferred_build_never_prints_notice (k : kconfig) (hs : list host) :
  HAVE_DISK_STATS k && HAVE_DISK_ITER k = true ->
  forall st,
    exists st',
      run_ticks k hs st = Ok tt st' /\
      count_lines is_io_fallback (emitted st st') = 0%nat /\
      io_fallback_logged st' = io_fallback_logged st.
Proof.
  intros B.
  assert (G : forall st,
             exists st' ls,
               run_ticks k hs st = Ok tt st' /\ dmesg st' = dmesg st ++ ls /\
               count_lines is_io_fallback ls = 0%nat /\
               io_fallback_logged st' = io_fallback_logged st).
  { induction hs as [| h hs IH]; intros st.
    - exists st, []. cbn. rewrite app_nil_r. repeat split.
    - destruct (poll_metrics_run k h st) as (io & st1 & E & _ & _ & _ & L & D & _).
      rewrite B in L.
      destruct (IH st1) as (st' & ls & E' & D' & C' & L').
      exists st', ((fallback_lines k st ++ cycle_alerts (snapshot st1) st) ++ ls).
      repeat split.
      + cbn. unfold bind. rewrite E. exact E'.
      + rewrite D', D, <- !app_assoc. reflexivity.
      + rewrite !count_lines_app, C', cycle_alerts_no_notice.
        unfold fallback_lines. rewrite B. reflexivity.
      + congruence. }
  intros st. destruct (G st) as (st' & ls & E & D & C & L).
  exists st'. split; [exact E |]. rewrite (emitted_app st st' ls D). split; assumption.
Qed.

Lemma preferred_build_never_prints_notice_witness :
  exists st',
    run_ticks build_blk [host_calm 1000 0; host_hot 1000 0] module_loaded = Ok tt st' /\
    count_lines is_io_fallback (emitted module_loaded st') = 0%nat /\
    io_fallback_logged st' = io_fallback_logged module_loaded.
Proof.
  apply (preferred_build_never_prints_notice build_blk [host_calm 1000 0; host_hot 1000 0]).
  reflexivity.
Defined.

(** ** Loading and unloading the module *)

(** X12. [sys_health_init] prints the load banner first and fails only when
    [proc_create] fails: it then returns -ENOMEM with no timer armed, no
    /proc entry and the snapshot untouched, although the banner has been
    printed; otherwise it returns 0 with the entry registered and the first
    tick armed [msecs_to_jiffies(5000)] after the current jiffies. *)
Theorem init_fails_only_without_proc_entry (k : kconfig) (jiffies : Z) (st : module_state) :
  (exists st',
      sys_health_init k false jiffies st = Ok (- ENOMEM) st' /\
      dmesg st' = dmesg st ++ [Info_loaded] /\
      poll_timer st' = poll_timer st /\
      proc_entry st' = proc_entry st /\
      snapshot st' = snapshot st) /\
  (exists st',
      sys_health_init k true jiffies st = Ok 0 st' /\
      dmesg st' = dmesg st ++ [Info_loaded] /\
      poll_timer st' = Some (ulong k (jiffies + ulong k (msecs_to_jiffies k 5000))) /\
      proc_entry st' = true /\
      snapshot st' = snapshot st).
Proof.
  split; eexists; (split; [reflexivity |]); repeat split.
Qed.

(** X13. A whole session: after a successful init the timer stays pending
    through any number of ticks and the /proc entry stays registered;
    [sys_health_exit] then leaves no timer pending and no entry, keeps the
    last snapshot, and the log of the session is the load banner, the lines
    of the cycles, and the unload banner last. *)
Theorem session_ends_clean (k : kconfig) (jiffies : Z) (hs : list host) (st : module_state) :
  exists st1 st2 st3 ls,
    sys_health_init k true jiffies st = Ok 0 st1 /\
    run_ticks k hs st1 = Ok tt st2 /\
    sys_health_exit st2 = Ok tt st3 /\
    poll_timer st1 <> None /\ poll_timer st2 <> None /\ proc_entry st2 = true /\
    poll_timer st3 = None /\ proc_entry st3 = false /\
    snapshot st3 = snapshot st2 /\
    dmesg st3 = dmesg st ++ Info_loaded :: ls ++ [Info_unloaded] /\
    Forall (fun l => is_cycle_line l = true) ls.
Proof.
  set (st1 := set_poll_timer (Some (ulong k (jiffies + ulong k (msecs_to_jiffies k 5000))))
                (set_proc_entry true (log_line Info_loaded st))).
  destruct (run_ticks_run k hs st1) as (st2 & ls & E & _ & Pe & D & F & T & _).
  exists st1, st2,
    (log_line Info_unloaded (set_proc_entry false (set_poll_timer None st2))), ls.
  assert (T1 : poll_timer st1 <> None) by (subst st1; simpl; discriminate).
  assert (P2 : proc_entry st2 = true) by (rewrite Pe; reflexivity).
  split; [reflexivity |]. split; [exact E |].
  split.
  { unfold sys_health_exit, bind, modify, gets, when, printk, ret.
    cbn [proc_entry set_poll_timer]. rewrite P2. reflexivity. }
  split; [exact T1 |]. split; [apply T, T1 |]. split; [exact P2 |].
  split; [reflexivity |]. split; [reflexivity |]. split; [reflexivity |].
  split; [| exact F].
  cbn [dmesg log_line set_proc_entry set_poll_timer]. rewrite D.
  subst st1. cbn [dmesg log_line set_proc_entry set_poll_timer].
  rewrite <- !app_assoc. reflexivity.
Qed.

(** ** The text of /proc/sys_health *)

Lemma append_inj_l (a x y : string) : (a ++ x = a ++ y)%string -> x = y.
Proof.
  induction a as [| c a IH]; simpl; intros H; [exact H |].
  injection H as H. apply IH, H.
Qed.

Lemma all_digits_uint (d : Decimal.uint) : all_digits (NilEmpty.string_of_uint d) = true.
Proof. induction d; simpl; auto. Qed.

Lemma all_digits_decimal (z : Z) : all_digits (decimal z) = true.
Proof.
  unfold decimal, NilZero.string_of_uint.
  destruct (N.to_uint (Z.to_N z)) eqn:E; try reflexivity;
    rewrite <- E; apply all_digits_uint.
Qed.

Lemma decimal_inj (z z' : Z) : 0 <= z -> 0 <= z' -> decimal z = decimal z' -> z = z'.
Proof.
  intros Hz Hz' H. unfold decimal in H.
  assert (N : forall n, N.to_uint n <> Decimal.Nil).
  { intros [| p]; [discriminate | apply DecimalPos.Unsigned.to_uint_nonnil]. }
  assert (U : Some (N.to_uint (Z.to_N z)) = Some (N.to_uint (Z.to_N z'))).
  { rewrite <- (NilZero.usu (N.to_uint (Z.to_N z))) by apply N.
    rewrite <- (NilZero.usu (N.to_uint (Z.to_N z'))) by apply N.
    rewrite H. reflexivity. }
  injection U as U. apply DecimalN.Unsigned.to_uint_inj in U.
  rewrite <- (Z2N.id z), <- (Z2N.id z') by assumption. rewrite U. reflexivity.
Qed.

(** A run of digits ends where the first character that is not a digit
    stands. *)
Lemma digits_split (d d' : string) (c c' : ascii) (r r' : string) :
  all_digits d = true -> all_digits d' = true ->
  is_digit c = false -> is_digit c' = false ->
  (d ++ String c r = d' ++ String c' r')%string ->
  d = d' /\ r = r'.
Proof.
  revert d'. induction d as [| x d IH]; intros [| x' d'] D D' C C' H; simpl in *.
  - injection H as _ H. split; [reflexivity | exact H].
  - injection H as Hc _. subst c.
    apply andb_true_iff in D'. destruct D' as [D' _]. congruence.
  - injection H as Hc _. subst c'.
    apply andb_true_iff in D. destruct D as [D _]. congruence.
  - injection H as Hx H. subst x'.
    apply andb_true_iff in D. apply andb_true_iff in D'.
    destruct (IH d' (proj2 D) (proj2 D') C C' H) as [E1 E2].
    split; [f_equal; exact E1 | exact E2].
Qed.

Ltac next_field H E :=
  repeat (injection H as H);
  apply digits_split in H;
  [destruct H as [E H] | apply all_digits_decimal | apply all_digits_decimal
   | reflexivity | reflexivity].

(** X14. The text of /proc/sys_health determines the snapshot: two
    snapshots with non-negative fields that render to the same text are
    equal, so a reader of the file can recover every field. *)
Theorem render_determines_snapshot (s s' : sys_snapshot) :
  nonneg_snapshot s -> nonneg_snapshot s' -> render s = render s' -> s = s'.
Proof.
  intros (A1 & A2 & A3 & A4 & A5) (B1 & B2 & B3 & B4 & B5) H.
  unfold render in H. cbn [append newline nnbsp nbsp] in H.
  next_field H E1. next_field H E2. next_field H E3. next_field H E4. next_field H E5.
  apply decimal_inj in E1, E2, E3, E4, E5; try assumption.
  destruct s, s'. simpl in *. congruence.
Qed.

Lemma render_determines_snapshot_witness :
  Concurrent.sample_a = Concurrent.sample_a.
Proof.
  apply (render_determines_snapshot Concurrent.sample_a Concurrent.sample_a).
  - unfold nonneg_snapshot. simpl. lia.
  - unfold nonneg_snapshot. simpl. lia.
  - reflexivity.
Defined.

(** ** The I/O rate of a cycle on a fallback build *)

Lemma poll_metrics_from_total (k : kconfig) (h : host) (st st1 : module_state) (v : Z) :
  read_io_total k h st = Ok v st1 ->
  exists st',
    poll_metrics k h st = Ok tt st' /\
    io_rate_sps (snapshot st') =
      (if last_io_ticks st1 =? 0 then 0 else u32 (u64 (v - last_io_ticks st1) / 5)) /\
    last_io_ticks st' = v.
Proof.
  intros R.
  unfold poll_metrics.
  unfold bind at 1. unfold collect_memory at 1. unfold ret at 1.
  unfold bind at 1. rewrite collect_load_percent_run.
  unfold bind at 1. unfold collect_disk_ios. unfold bind at 1.
  rewrite R, io_delta_rate_run.
  unfold publish, mod_timer_5s, printk, bind, gets, modify, when, ret.
  cbn [fst snd free_mem_mib load_pct io_rate_sps].
  repeat (cbn [set_last_io_ticks set_snapshot log_line
               mem_threshold cpu_threshold io_threshold last_io_ticks];
          match goal with
          | |- context [if ?c then (fun s => Ok tt (log_line _ s)) else _] => destruct c
          end;
          cbv beta iota);
    (eexists; split; [reflexivity |]); split; reflexivity.
Qed.

(** X20. On a fallback build with 4 KiB pages and a baseline of [p] pages
    (8 p sectors), a cycle that finds [d] more page-in and page-out events
    publishes the I/O rate [8 * d / 5] sectors per second and moves the
    baseline to the new total. *)
Theorem fallback_rate_from_page_events
    (k : kconfig) (h : host) (st : module_state) (p d : Z) :
  HAVE_DISK_STATS k && HAVE_DISK_ITER k = false -> PAGE_SIZE k = 4096 ->
  0 < p -> 0 <= d -> last_io_ticks st = 8 * p ->
  0 <= ev_PGPGIN h -> 0 <= ev_PGPGOUT h -> ev_PGPGIN h + ev_PGPGOUT h = p + d ->
  8 * (p + d) < 2 ^ 64 -> 8 * d / 5 < 2 ^ 32 ->
  exists st',
    poll_metrics k h st = Ok tt st' /\
    io_rate_sps (snapshot st') = 8 * d / 5 /\
    last_io_ticks st' = 8 * (p + d).
Proof.
  intros B Hps Hp Hd Hl Hi Ho Hsum Hlt Hq.
  assert (V : u64 (u64 (u64 (ev_PGPGIN h) + u64 (ev_PGPGOUT h)) * Z.shiftr (PAGE_SIZE k) 9)
              = 8 * (p + d)).
  { rewrite Hps. change (Z.shiftr 4096 9) with 8.
    rewrite (u64_id (ev_PGPGIN h)) by (unfold is_u64; lia).
    rewrite (u64_id (ev_PGPGOUT h)) by (unfold is_u64; lia).
    rewrite Hsum. rewrite (u64_id (p + d)) by (unfold is_u64; lia).
    rewrite u64_id by (unfold is_u64; lia). lia. }
  assert (R : exists st1, read_io_total k h st = Ok (8 * (p + d)) st1 /\
                          last_io_ticks st1 = last_io_ticks st).
  { unfold read_io_total. rewrite B. unfold bind, gets, when, printk, modify, ret.
    destruct (io_fallback_logged st); simpl; rewrite V; eexists; split; reflexivity. }
  destruct R as (st1 & R & L1).
  destruct (poll_metrics_from_total k h st st1 _ R) as (st' & E & Eio & El).
  exists st'. split; [exact E |]. split; [| exact El].
  rewrite Eio, L1, Hl.
  destruct (Z.eqb_spec (8 * p) 0) as [Z0 | _]; [lia |].
  replace (8 * (p + d) - 8 * p) with (8 * d) by lia.
  rewrite (u64_id (8 * d)) by (unfold is_u64; lia).
  apply u32_id. unfold is_u32. split; [apply Z.div_pos; lia | exact Hq].
Qed.

Lemma fallback_rate_from_page_events_witness :
  exists st',
    poll_metrics build_fallback (host_hot 4750 0) state_warm = Ok tt st' /\
    io_rate_sps (snapshot st') = 8 * 3750 / 5 /\
    last_io_ticks st' = 8 * (1000 + 3750).
Proof.
  apply (fallback_rate_from_page_events build_fallback (host_hot 4750 0) state_warm
           1000 3750); vm_compute; (reflexivity || discriminate).
Defined.

(** ** More on the interleavings *)

Module ConcurrentMore.
Import Concurrent ConcurrentProofs.

(** A held lock has a holder. *)
Lemma lock_holder_step (t : tid) (s : sys) :
  (snap_lock s = true ->
   in_cs (w_pc (sampler s)) = true \/ exists i, in_cs (r_pc (readers s i)) = true) ->
  snap_lock (step t s) = true ->
  in_cs (w_pc (sampler (step t s))) = true \/
  exists i, in_cs (r_pc (readers (step t s) i)) = true.
Proof.
  intros I.
  destruct t as [| i]; simpl.
  - unfold sampler_step.
    destruct s as [lock sh [wpc wtodo wdone] rs]; simpl in *.
    destruct wtodo as [| tmp rest]; [exact I |].
    destruct wpc as [| [| f fs] |]; simpl; try exact I.
    + destruct lock; simpl; [exact I | intros _; left; reflexivity].
    + discriminate.
  - unfold reader_step.
    destruct s as [lock sh w rs]; simpl in *.
    destruct (rs i) as [p loc] eqn:Ri; simpl.
    destruct p as [| [| f fs] |]; simpl; try exact I.
    + destruct lock; simpl; [exact I |].
      intros _. right. exists i. rewrite set_reader_same. reflexivity.
    + discriminate.
    + intros _. right. exists i. rewrite set_reader_same. reflexivity.
Qed.

Lemma lock_holder_run (sched : list tid) :
  forall s,
    (snap_lock s = true ->
     in_cs (w_pc (sampler s)) = true \/ exists i, in_cs (r_pc (readers s i)) = true) ->
    snap_lock (run sched s) = true ->
    in_cs (w_pc (sampler (run sched s))) = true \/
    exists i, in_cs (r_pc (readers (run sched s) i)) = true.
Proof.
  induction sched as [| t sched IH]; intros s I; simpl.
  - exact I.
  - apply IH. apply lock_holder_step, I.
Qed.

(** X15. Mutual exclusion on a build with CONFIG_SMP, in every
    interleaving: while the sampler is inside its critical section no reader
    is inside its own, two readers are never inside at the same time, and
    [snap_lock] is held exactly when some thread is inside. *)
Theorem mutual_exclusion
    (cycles : list sys_snapshot) (stack : nat -> sys_snapshot) (sched : list tid) :
  (forall i,
      in_cs (w_pc (sampler (run_on true sched (boot cycles stack)))) = true ->
      in_cs (r_pc (readers (run_on true sched (boot cycles stack)) i)) = false) /\
  (forall i j,
      in_cs (r_pc (readers (run_on true sched (boot cycles stack)) i)) = true ->
      in_cs (r_pc (readers (run_on true sched (boot cycles stack)) j)) = true -> i = j) /\
  (snap_lock (run_on true sched (boot cycles stack)) = true <->
   (in_cs (w_pc (sampler (run_on true sched (boot cycles stack)))) = true \/
    exists i, in_cs (r_pc (readers (run_on true sched (boot cycles stack)) i)) = true)).
Proof.
  change (run_on true sched (boot cycles stack)) with (run sched (boot cycles stack)).
  pose proof (inv_run cycles sched _ (inv_boot cycles stack)) as I.
  pose proof (lock_holder_run sched (boot cycles stack)) as L.
  set (s := run sched (boot cycles stack)) in *.
  split; [| split; [| split]].
  - intros i W. apply (inv_sampler_alone _ _ I W).
  - apply (inv_reader_alone _ _ I).
  - apply L. simpl. discriminate.
  - intros H. destruct (snap_lock s) eqn:K; [reflexivity |].
    destruct (inv_unlocked _ _ I K) as [W R].
    destruct H as [H | [i H]]; [rewrite W in H | rewrite R in H]; discriminate.
Qed.

Lemma mutual_exclusion_witness :
  snap_lock (run_on true (firstn 12 schedule_mixed) (boot [sample_a; sample_b] stale_stack))
    = true /\
  in_cs (r_pc (readers (run_on true (firstn 12 schedule_mixed)
                                (boot [sample_a; sample_b] stale_stack)) 1)) = true /\
  in_cs (w_pc (sampler (run_on true (firstn 12 schedule_mixed)
                                (boot [sample_a; sample_b] stale_stack)))) = false.
Proof.
  split; [reflexivity |]. split; [reflexivity |].
  destruct (mutual_exclusion [sample_a; sample_b] stale_stack (firstn 12 schedule_mixed))
    as (H & _ & _).
  destruct (in_cs (w_pc (sampler (run_on true (firstn 12 schedule_mixed)
                                          (boot [sample_a; sample_b] stale_stack))))) eqn:W;
    [| reflexivity].
  specialize (H 1%nat eq_refl). vm_compute in H. discriminate.
Defined.

(** Without CONFIG_SMP the sampler is not kept out: it has written the
    store while reader 0 is inside its critical section. *)
Example no_exclusion_without_smp :
  in_cs (r_pc (readers (run_on false (firstn 4 Uniprocessor.schedule_preempted)
                                (boot [sample_a] stale_stack)) 0)) = true /\
  shared (run_on false (firstn 4 Uniprocessor.schedule_preempted)
                 (boot [sample_a] stale_stack)) = sample_a /\
  shared (run_on false (firstn 3 Uniprocessor.schedule_preempted)
                 (boot [sample_a] stale_stack)) = zero_snapshot.
Proof. repeat split. Qed.

Lemma last_rev_hd (l : list sys_snapshot) (d : sys_snapshot) : last (rev l) d = hd d l.
Proof.
  destruct l as [| x l]; [reflexivity |]. simpl. apply last_last.
Qed.

(** X16. On a build with CONFIG_SMP the store follows the cycles in
    order: in every interleaving the cycles split into those completed and
    those the sampler still has to do, and whenever the sampler is outside
    its critical section the stored snapshot is the sample of the last
    completed cycle (the zero snapshot when none is completed), not an
    older or a later one. *)
Theorem store_holds_last_completed_cycle
    (cycles : list sys_snapshot) (stack : nat -> sys_snapshot) (sched : list tid) :
  exists completed,
    cycles = completed ++ w_todo (sampler (run_on true sched (boot cycles stack))) /\
    (in_cs (w_pc (sampler (run_on true sched (boot cycles stack)))) = false ->
     shared (run_on true sched (boot cycles stack)) = last completed zero_snapshot).
Proof.
  change (run_on true sched (boot cycles stack)) with (run sched (boot cycles stack)).
  pose proof (inv_run cycles sched _ (inv_boot cycles stack)) as I.
  exists (rev (w_done (sampler (run sched (boot cycles stack))))).
  split; [symmetry; apply (inv_history _ _ I) |].
  intros W. rewrite (inv_stable _ _ I W), last_rev_hd. reflexivity.
Qed.

Lemma store_holds_last_completed_cycle_witness :
  shared (run_on true (repeat Sampler 7) (boot [sample_a; sample_b] stale_stack)) = sample_a.
Proof.
  destruct (store_holds_last_completed_cycle [sample_a; sample_b] stale_stack
              (repeat Sampler 7)) as (completed & E & H).
  change ([sample_a] ++ [sample_b] = completed ++ [sample_b]) in E.
  apply app_inv_tail in E. subst completed.
  apply H. reflexivity.
Defined.

(** X17. Uncontended, the critical section of the sampler is the
    assignment [snapshot = tmp]: when the lock is free, seven steps of the
    sampler (lock, five members, unlock) leave the lock free, the store
    equal to [tmp], and [tmp] recorded as published; the readers are not
    touched. *)
Theorem sampler_publishes_when_lock_free (s : sys) (tmp : sys_snapshot)
    (rest : list sys_snapshot) :
  snap_lock s = false -> w_pc (sampler s) = Before -> w_todo (sampler s) = tmp :: rest ->
  run (repeat Sampler 7) s =
    {| snap_lock := false; shared := tmp;
       sampler := {| w_pc := Before; w_todo := rest; w_done := tmp :: w_done (sampler s) |};
       readers := readers s |}.
Proof.
  destruct s as [lock sh [wpc wtodo wdone] rs]. simpl.
  intros -> -> ->. destruct tmp, sh. reflexivity.
Qed.

Lemma sampler_publishes_when_lock_free_witness :
  run (repeat Sampler 7) (boot [sample_a; sample_b] stale_stack) =
    {| snap_lock := false; shared := sample_a;
       sampler := {| w_pc := Before; w_todo := [sample_b];
                     w_done := sample_a :: w_done (sampler (boot [sample_a; sample_b] stale_stack)) |};
       readers := readers (boot [sample_a; sample_b] stale_stack) |}.
Proof.
  apply (sampler_publishes_when_lock_free (boot [sample_a; sample_b] stale_stack)
           sample_a [sample_b]); reflexivity.
Defined.

Lemma reader_step_at (i : nat) (s : sys) (p : pc) (loc : sys_snapshot) :
  readers s i = {| r_pc := p; r_s := loc |} ->
  reader_step i s =
    match p with
    | Before =>
        if snap_lock s then s
        else {| snap_lock := true; shared := shared s; sampler := sampler s;
                readers := set_reader i {| r_pc := Copying all_fields; r_s := loc |}
                                      (readers s) |}
    | Copying (f :: fs) =>
        {| snap_lock := snap_lock s; shared := shared s; sampler := sampler s;
           readers := set_reader i {| r_pc := Copying fs;
                                      r_s := copy_field f (shared s) loc |}
                                 (readers s) |}
    | Copying [] =>
        {| snap_lock := false; shared := shared s; sampler := sampler s;
           readers := set_reader i {| r_pc := After; r_s := loc |} (readers s) |}
    | After => s
    end.
Proof.
  intros E. unfold reader_step. rewrite E. reflexivity.
Qed.

(** X18. Uncontended, a call of [proc_show] gets the store as it is: when
    the lock is free, seven steps of a reader that has not started (lock,
    five members, unlock) leave it with a copy equal to the stored
    snapshot, whatever its local variable held before, and leave the lock
    free, the store and the sampler as they were. *)
Theorem reader_copies_store_when_lock_free (s : sys) (i : nat) :
  snap_lock s = false -> r_pc (readers s i) = Before ->
  observed (run (repeat (Reader i) 7) s) i = Some (shared s) /\
  snap_lock (run (repeat (Reader i) 7) s) = false /\
  shared (run (repeat (Reader i) 7) s) = shared s /\
  sampler (run (repeat (Reader i) 7) s) = sampler s.
Proof.
  intros L P.
  destruct s as [lock sh w rs]. simpl in L, P. subst lock.
  destruct (rs i) as [p loc] eqn:Ri. simpl in P. subst p.
  cbn [repeat run fold_left step].
  rewrite (reader_step_at i (Build_sys false sh w rs) Before loc) by exact Ri.
  cbn [snap_lock shared sampler readers].
  repeat (match goal with
          | |- context [reader_step i (Build_sys ?a ?b ?c ?d)] =>
              erewrite (reader_step_at i (Build_sys a b c d))
                by (cbn [readers]; apply set_reader_same)
          end;
          cbn [snap_lock shared sampler readers all_fields]).
  unfold observed. cbn [readers snap_lock shared sampler].
  rewrite set_reader_same. cbn [r_pc r_s].
  repeat split. f_equal. destruct sh, loc. reflexivity.
Qed.

Lemma reader_copies_store_when_lock_free_witness :
  observed (run (repeat (Reader 3) 7) (run (repeat Sampler 7) (boot [sample_a] stale_stack))) 3
    = Some (shared (run (repeat Sampler 7) (boot [sample_a] stale_stack))) /\
  snap_lock (run (repeat (Reader 3) 7) (run (repeat Sampler 7) (boot [sample_a] stale_stack)))
    = false /\
  shared (run (repeat (Reader 3) 7) (run (repeat Sampler 7) (boot [sample_a] stale_stack)))
    = shared (run (repeat Sampler 7) (boot [sample_a] stale_stack)) /\
  sampler (run (repeat (Reader 3) 7) (run (repeat Sampler 7) (boot [sample_a] stale_stack)))
    = sampler (run (repeat Sampler 7) (boot [sample_a] stale_stack)).
Proof.
  apply (reader_copies_store_when_lock_free
           (run (repeat Sampler 7) (boot [sample_a] stale_stack)) 3); reflexivity.
Defined.

Lemma reader_step_keeps_store (i : nat) (s : sys) :
  shared (reader_step i s) = shared s /\ sampler (reader_step i s) = sampler s.
Proof.
  unfold reader_step.
  destruct (r_pc (readers s i)) as [| [| f fs] |]; try (split; reflexivity).
  destruct (snap_lock s); split; reflexivity.
Qed.

(** X19. Readers never write: over any schedule in which only readers
    run, however many and in whatever order, the stored snapshot and the
    sampler's state are unchanged. *)
Theorem readers_never_write (sched : list tid) :
  forall s,
    only_readers sched = true ->
    shared (run sched s) = shared s /\ sampler (run sched s) = sampler s.
Proof.
  induction sched as [| t sched IH]; intros s O; simpl.
  - split; reflexivity.
  - simpl in O. apply andb_true_iff in O. destruct O as [Ot O].
    destruct t as [| i]; [discriminate |].
    destruct (IH (reader_step i s) O) as [E1 E2].
    destruct (reader_step_keeps_store i s) as [K1 K2].
    simpl. rewrite E1, E2. split; assumption.
Qed.

Lemma readers_never_write_witness :
  shared (run [Reader 0; Reader 1; Reader 0; Reader 2; Reader 0]
              (run (repeat Sampler 3) (boot [sample_a] stale_stack)))
    = shared (run (repeat Sampler 3) (boot [sample_a] stale_stack)) /\
  sampler (run [Reader 0; Reader 1; Reader 0; Reader 2; Reader 0]
               (run (repeat Sampler 3) (boot [sample_a] stale_stack)))
    = sampler (run (repeat Sampler 3) (boot [sample_a] stale_stack)).
Proof.
  apply (readers_never_write [Reader 0; Reader 1; Reader 0; Reader 2; Reader 0]
           (run (repeat Sampler 3) (boot [sample_a] stale_stack))).
  reflexivity.
Defined.

End ConcurrentMore.
